(** * The Vikhlinin density-profile fitter ([vikhlinin/fitter.py]) in Rocq

    A shallow embedding of [vikhlinin_density_model] and of the class
    [VikhlininProfile], and the properties of its specification.

    Numbers.  A Python/numpy float is modelled by [float]: a real number
    ([Fin]), one of the two infinities or [NaN].  The arithmetic is the IEEE-754
    arithmetic numpy performs, taken exactly: rounding, overflow of a finite
    result and the sign of zero are not represented.  Every statement below is
    therefore a statement about the computation in exact arithmetic.

    Arrays.  A one-dimensional numpy array is a [list float]; an operation
    between two arrays follows numpy's broadcasting and raises [ValueError]
    when the shapes do not agree.

    Units.  A [unyt] array is its numeric values paired with a unit tag; the
    unit algebra of [unyt] is outside the model, the tag is only carried from
    the inputs to the attributes that the class stores.  With radii that
    carry a physical unit the source fails in [1 + (radius / r_core) ** 2]
    with [unyt]'s [UnitOperationError]; the model has no such error, so a
    statement that asserts the outcome of a construction is made for
    dimensionless radii, and the others are conditional on an object having
    been returned.

    The optimiser.  [scipy.optimize.minimize] and the conversion to [float32]
    are arguments of the embedding: every theorem holds for whatever functions
    stand in for them. *)

From Stdlib Require Import Ascii String.
From Stdlib Require Import Reals Lra Psatz List Bool.
From Stdlib Require Strings.Byte.
Import ListNotations.

Open Scope R_scope.

(* ================================================================== *)
(** * Python floats *)
(* ================================================================== *)

Inductive float : Type :=
| Fin (r : R)
| PInf
| NInf
| NaN.

Declare Scope float_scope.
Delimit Scope float_scope with fl.
Bind Scope float_scope with float.

(** The infinity that has the sign of [x]; [inf * 0] and [0 / 0] are [NaN]. *)
Definition signed_inf (x : R) : float :=
  if Rlt_dec 0 x then PInf
  else if Rlt_dec x 0 then NInf
  else NaN.

Definition fneg (a : float) : float :=
  match a with
  | Fin x => Fin (- x)
  | PInf => NInf
  | NInf => PInf
  | NaN => NaN
  end.

Definition fadd (a b : float) : float :=
  match a, b with
  | NaN, _ | _, NaN => NaN
  | Fin x, Fin y => Fin (x + y)
  | PInf, NInf | NInf, PInf => NaN
  | PInf, _ | _, PInf => PInf
  | NInf, _ | _, NInf => NInf
  end.

Definition fsub (a b : float) : float := fadd a (fneg b).

Definition fmul (a b : float) : float :=
  match a, b with
  | NaN, _ | _, NaN => NaN
  | Fin x, Fin y => Fin (x * y)
  | Fin x, PInf | PInf, Fin x => signed_inf x
  | Fin x, NInf | NInf, Fin x => signed_inf (- x)
  | PInf, PInf | NInf, NInf => PInf
  | PInf, NInf | NInf, PInf => NInf
  end.

Definition fdiv (a b : float) : float :=
  match a, b with
  | NaN, _ | _, NaN => NaN
  | Fin x, Fin y => if Req_dec_T y 0 then signed_inf x else Fin (x / y)
  | Fin _, (PInf | NInf) => Fin 0
  | PInf, Fin y => if Rlt_dec y 0 then NInf else PInf
  | NInf, Fin y => if Rlt_dec y 0 then PInf else NInf
  | (PInf | NInf), (PInf | NInf) => NaN
  end.

(** [y] is the float of an integer, of an odd integer. *)
Definition is_integer (y : R) : bool :=
  if Req_dec_T (IZR (Int_part y)) y then true else false.

Definition is_odd_integer (y : R) : bool :=
  is_integer y && Z.odd (Int_part y).

(** [x ** y] on finite operands; here [y] is not zero and [x] is not one. *)
Definition pow_finite (x y : R) : float :=
  if Rlt_dec 0 x then Fin (Rpower x y)
  else if Req_dec_T x 0 then (if Rlt_dec 0 y then Fin 0 else PInf)
  else if is_integer y then Fin (powerRZ x (Int_part y))
  else NaN.

(** [x ** y] for an infinite exponent, [up] telling its sign. *)
Definition pow_inf_exponent (x : R) (up : bool) : float :=
  if Rlt_dec (Rabs x) 1 then (if up then Fin 0 else PInf)
  else if Req_dec_T (Rabs x) 1 then Fin 1
  else (if up then PInf else Fin 0).

(** The power function of C99 (numpy's [power] on floats): the exponent zero
    and the base one give one whatever the other operand is, [NaN] included. *)
Definition fpow (a b : float) : float :=
  match a, b with
  | _, Fin y =>
      if Req_dec_T y 0 then Fin 1
      else match a with
           | Fin x => if Req_dec_T x 1 then Fin 1 else pow_finite x y
           | PInf => if Rlt_dec 0 y then PInf else Fin 0
           | NInf => if Rlt_dec 0 y
                     then (if is_odd_integer y then NInf else PInf)
                     else Fin 0
           | NaN => NaN
           end
  | Fin x, PInf => if Req_dec_T x 1 then Fin 1 else pow_inf_exponent x true
  | Fin x, NInf => if Req_dec_T x 1 then Fin 1 else pow_inf_exponent x false
  | Fin x, NaN => if Req_dec_T x 1 then Fin 1 else NaN
  | (PInf | NInf), PInf => PInf
  | (PInf | NInf), NInf => Fin 0
  | _, NaN => NaN
  | NaN, _ => NaN
  end.

Definition flog10 (a : float) : float :=
  match a with
  | Fin x => if Rlt_dec 0 x then Fin (ln x / ln 10)
             else if Req_dec_T x 0 then NInf
             else NaN
  | PInf => PInf
  | NInf => NaN
  | NaN => NaN
  end.

(** Truth value of a float in a condition: every float but zero is true. *)
Definition truthy (a : float) : bool :=
  match a with
  | Fin x => if Req_dec_T x 0 then false else true
  | _ => true
  end.

Infix "+" := fadd : float_scope.
Infix "-" := fsub : float_scope.
Infix "*" := fmul : float_scope.
Infix "/" := fdiv : float_scope.
Notation "- x" := (fneg x) : float_scope.
Infix "**" := fpow (at level 30, right associativity) : float_scope.

(* ================================================================== *)
(** * Exceptions and warnings *)
(* ================================================================== *)

Inductive exn : Type :=
| TypeError
| ValueError
| UnicodeDecodeError
| OptimizerError.

Inductive result (A : Type) : Type :=
| Ok (a : A)
| Raise (e : exn).

Arguments Ok {A} a.
Arguments Raise {A} e.

Definition bind {A B : Type} (m : result A) (k : A -> result B) : result B :=
  match m with
  | Ok a => k a
  | Raise e => Raise e
  end.

Definition fmap {A B : Type} (f : A -> B) (m : result A) : result B :=
  bind m (fun a => Ok (f a)).

Notation "'do' x <- m ; k" := (bind m (fun x => k))
  (at level 10, x name, m at level 100, k at level 200).

(* ================================================================== *)
(** * numpy arrays *)
(* ================================================================== *)

Definition ndarray : Type := list float.

(** array (op) scalar and scalar (op) array *)
Definition arr_op_s (op : float -> float -> float) (a : ndarray) (s : float) : ndarray :=
  map (fun x => op x s) a.

Definition s_op_arr (op : float -> float -> float) (s : float) (a : ndarray) : ndarray :=
  map (fun x => op s x) a.

Fixpoint zip_with (op : float -> float -> float) (a b : ndarray) : ndarray :=
  match a, b with
  | x :: a', y :: b' => op x y :: zip_with op a' b'
  | _, _ => []
  end.

(** array (op) array: equal shapes go element by element, an array of one
    element is stretched over the other, anything else does not broadcast. *)
Definition arr_op (op : float -> float -> float) (a b : ndarray) : result ndarray :=
  if Nat.eqb (length a) (length b) then Ok (zip_with op a b)
  else match a, b with
       | [x], _ => Ok (s_op_arr op x b)
       | _, [y] => Ok (arr_op_s op a y)
       | _, _ => Raise ValueError
       end.

Definition np_log10 (a : ndarray) : ndarray := map flog10 a.

(** [np.sum] of a one-dimensional array; the sum of no element is [0.0]. *)
Definition np_sum (a : ndarray) : float := fold_left fadd a (Fin 0).

(* ================================================================== *)
(** * The density model *)
(* ================================================================== *)

Definition vikhlinin_density_model (radius : ndarray)
    (n_0 r_core r_scale alpha beta epsilon : float) (yield_log : bool)
  : result ndarray :=
  let term1 := arr_op_s fpow (arr_op_s fdiv radius r_core) (- alpha / Fin 2)%fl in
  let term2 :=
    arr_op_s fpow
      (s_op_arr fadd (Fin 1) (arr_op_s fpow (arr_op_s fdiv radius r_core) (Fin 2)))
      (Fin 3 * beta / Fin 2 - alpha / Fin 4)%fl in
  let term3 :=
    arr_op_s fpow
      (s_op_arr fadd (Fin 1) (arr_op_s fpow (arr_op_s fdiv radius r_scale) (Fin 3)))
      (epsilon / Fin 6)%fl in
  if yield_log then
    do q1 <- arr_op fdiv (s_op_arr fmul n_0 term1) term2;
    do q2 <- arr_op fdiv q1 term3;
    Ok (np_log10 q2)
  else
    do q1 <- arr_op fdiv (s_op_arr fmul n_0 term1) term2;
    arr_op fdiv q1 term3.

(** The formula of the specification, for one radius. *)
Definition spec_value (n_0 r_core r_scale alpha beta epsilon r : float) : float :=
  (n_0 * (r / r_core) ** (- alpha / Fin 2)
   / (Fin 1 + (r / r_core) ** Fin 2) ** (Fin 3 * beta / Fin 2 - alpha / Fin 4)
   / (Fin 1 + (r / r_scale) ** Fin 3) ** (epsilon / Fin 6))%fl.

(** [vikhlinin_density_model(radius, *params)]: the sequence is spread over
    the positional parameters, a seventh element lands in [yield_log], and
    any other number of elements is a [TypeError]. *)
Definition vikhlinin_density_model_star (radius : ndarray) (params : list float)
  : result ndarray :=
  match params with
  | [n_0; r_core; r_scale; alpha; beta; epsilon] =>
      vikhlinin_density_model radius n_0 r_core r_scale alpha beta epsilon true
  | [n_0; r_core; r_scale; alpha; beta; epsilon; yield_log] =>
      vikhlinin_density_model radius n_0 r_core r_scale alpha beta epsilon
        (truthy yield_log)
  | _ => Raise TypeError
  end.

(* ================================================================== *)
(** * Module constants *)
(* ================================================================== *)

Definition starting_parameters_default : list float :=
  [Fin 3e-3; Fin 0.1; Fin 0.6; Fin 0.5; Fin 0.4; Fin 1.2].

Definition parameter_bounds_default : list (float * float) :=
  [(Fin 0, PInf);
   (Fin 0, PInf);
   (Fin 0, PInf);
   (Fin 0, PInf);
   (Fin 0, PInf);
   (Fin 0, Fin 5)].

Definition parameter_bounds_macsis : list (float * float) :=
  [(Fin 9e-4, Fin 9e-3);
   (Fin 0.01, Fin 0.18);
   (Fin 0.5, Fin 0.75);
   (Fin 1.49999, Fin 1.500001);
   (Fin 0.3, Fin 0.6);
   (Fin 2.0, Fin 3)].

(* ================================================================== *)
(** * Values of the libraries the class uses *)
(* ================================================================== *)

(** A [unyt] array: numeric values and a unit. *)
Record unyt_array : Type := mk_unyt_array {
  values : ndarray;
  units : string
}.

Inductive dtype : Type := float32 | float64.

(** A [unyt] quantity built from a zero-dimensional numpy array. *)
Record unyt_quantity : Type := mk_unyt_quantity {
  q_value : float;
  q_dtype : dtype;
  q_units : string
}.

(** The fields of scipy's [OptimizeResult] that the class reads. *)
Module OptimizeResult.
Record t : Type := mk {
  x : list float;
  success : bool;
  message : list Byte.byte;
  nit : nat
}.
End OptimizeResult.

Record minimize_options : Type := mk_options {
  maxiter : float;
  ftol : float
}.

Inductive warning : Type :=
| RuntimeWarning (text : string).

(** [bytes.decode('ascii')] *)
Definition is_ascii (b : Byte.byte) : bool := Nat.ltb (Byte.to_nat b) 128.

Definition decode_ascii (bs : list Byte.byte) : result string :=
  if forallb is_ascii bs then Ok (string_of_list_byte bs)
  else Raise UnicodeDecodeError.

(** A computation that may warn before it returns or raises. *)
Definition py (A : Type) : Type := (list warning * result A)%type.

Definition ret {A : Type} (a : A) : py A := ([], Ok a).

Definition lift {A : Type} (r : result A) : py A := ([], r).

(** [warnings.warn] under the default filter: the warning is recorded and
    the execution goes on. *)
Definition warn (w : warning) : py unit := ([w], Ok tt).

Definition bind_py {A B : Type} (m : py A) (k : A -> py B) : py B :=
  match m with
  | (w, Ok a) => let (w', r) := k a in (w ++ w', r)
  | (w, Raise e) => (w, Raise e)
  end.

Notation "'run' x <- m ; k" := (bind_py m (fun x => k))
  (at level 10, x name, m at level 100, k at level 200).

(* ================================================================== *)
(** * The class VikhlininProfile *)
(* ================================================================== *)

(** The attributes [__init__] sets before it runs the fit. *)
Record Constructed : Type := mk_constructed {
  radii : unyt_array;
  density_profile : unyt_array;
  starting_parameters : list float;
  parameter_bounds : list (float * float)
}.

(** The object once [run_hse_fit] has returned. *)
Record VikhlininProfile : Type := mk_profile {
  inputs : Constructed;
  density_fit_params : OptimizeResult.t;
  density_profile_hse : ndarray;
  n_0 : unyt_quantity;
  r_core : unyt_quantity;
  r_scale : unyt_quantity;
  alpha : float;
  beta : float;
  epsilon : float;
  success : bool;
  message : string;
  n_iterations : nat
}.

(** [residuals_density] is a static method: it reads no attribute. *)
Definition residuals_density (free_parameters : list float)
    (density_data radius_data : ndarray) : result float :=
  do density_model <- vikhlinin_density_model_star radius_data free_parameters;
  do error <- arr_op fsub density_model density_data;
  do squares <- arr_op fmul error error;
  Ok (np_sum squares).

Definition objective : Type := list float -> ndarray -> ndarray -> result float.

Definition minimizer : Type :=
  objective -> list float -> ndarray * ndarray -> string ->
  list (float * float) -> minimize_options -> result OptimizeResult.t.

Definition did_not_succeed : string :=
  "Fit optimization did not succeed. Try a different method or different options."%string.

(** An optional argument: the value passed, or the default when the caller
    omits it. *)
Definition default_arg {A : Type} (arg : option A) (default : A) : A :=
  match arg with
  | Some a => a
  | None => default
  end.

Section Estimator.

(** [scipy.optimize.minimize(fun, x0, args, method, bounds, options)] *)
Variable minimize : minimizer.

(** [np.array(v, dtype=np.float32)] on a scalar *)
Variable to_float32 : float -> float.

(** [density_fit(self, x, y)]: the observed profile [y] comes first in
    [args], as [residuals_density] expects it. *)
Definition density_fit (self : Constructed) (x y : ndarray)
  : py OptimizeResult.t :=
  run optimize_result <-
    lift (minimize residuals_density
            (starting_parameters self)
            (y, x)
            "L-BFGS-B"%string
            (parameter_bounds self)
            (mk_options (Fin 1e4) (Fin 1e-15)));
  run _ <- (if negb (OptimizeResult.success optimize_result)
            then warn (RuntimeWarning did_not_succeed)
            else ret tt);
  ret optimize_result.

(** [run_hse_fit]: the fit on the logarithm of the profile, the curve
    [10 ** model], the six parameters unpacked (any other number of them is
    a [ValueError]), then the diagnostics of the optimiser. *)
Definition run_hse_fit (self : Constructed) : py VikhlininProfile :=
  run fit <- density_fit self (values (radii self))
               (np_log10 (values (density_profile self)));
  run model <- lift (vikhlinin_density_model_star (values (radii self))
                       (OptimizeResult.x fit));
  let hse := s_op_arr fpow (Fin 10) model in
  match OptimizeResult.x fit with
  | [p_n_0; p_r_core; p_r_scale; p_alpha; p_beta; p_epsilon] =>
      let q_n_0 :=
        mk_unyt_quantity (to_float32 p_n_0) float32 (units (density_profile self)) in
      let q_r_core :=
        mk_unyt_quantity (to_float32 p_r_core) float32 (units (radii self)) in
      let q_r_scale :=
        mk_unyt_quantity (to_float32 p_r_scale) float32 (units (radii self)) in
      run text <- lift (decode_ascii (OptimizeResult.message fit));
      ret (mk_profile self fit hse q_n_0 q_r_core q_r_scale
             p_alpha p_beta p_epsilon
             (OptimizeResult.success fit) text (OptimizeResult.nit fit))
  | _ => lift (Raise ValueError)
  end.

(** [__init__]: an omitted optional argument takes the module default. *)
Definition __init__ (radii density_profile : unyt_array)
    (start_params : option (list float))
    (param_bounds : option (list (float * float))) : py VikhlininProfile :=
  let self :=
    mk_constructed radii density_profile
      (default_arg start_params starting_parameters_default)
      (default_arg param_bounds parameter_bounds_default) in
  run_hse_fit self.

End Estimator.

(* ================================================================== *)
(** * Vocabulary of the statements *)
(* ================================================================== *)

(** The formula of the model over the real numbers; it is the value of the
    model at a positive radius when the two scale radii are positive. *)
Definition density (n0 rc rs a b e r : R) : R :=
  n0 * Rpower (r / rc) (- a / 2)
  / Rpower (1 + Rpower (r / rc) 2) (3 * b / 2 - a / 4)
  / Rpower (1 + Rpower (r / rs) 3) (e / 6).

(** Its logarithm, up to the normalisation, split into three terms each of
    which grows with the radius. *)
Definition log_slope (rc rs a b e r : R) : R :=
  - (a / 4) * (2 * ln (r / rc) - ln (1 + (r / rc) ^ 2))
  - (3 * b / 2) * ln (1 + (r / rc) ^ 2)
  - (e / 6) * ln (1 + (r / rs) ^ 3).

Definition is_finite (v : float) : Prop := exists r, v = Fin r.

Definition positive (v : float) : Prop := exists r, v = Fin r /\ 0 < r.

(** A float that compares [>= 0]: [NaN] does not. *)
Definition nonnegative (v : float) : Prop :=
  match v with
  | Fin r => 0 <= r
  | PInf => True
  | NInf | NaN => False
  end.

(** What [10 ** log10(v)] is, as a function of [v]. *)
Definition through_log10 (v : float) : float :=
  match v with
  | Fin r => if Rlt_dec r 0 then NaN else Fin r
  | PInf => PInf
  | NInf | NaN => NaN
  end.

(** The sum, over the elements, of the squared difference between a
    prediction and an observation, as the specification words the residual. *)
Fixpoint sum_squared_differences (prediction observed : ndarray) : float :=
  match prediction, observed with
  | m :: prediction', d :: observed' =>
      ((m - d) * (m - d) + sum_squared_differences prediction' observed')%fl
  | _, _ => Fin 0
  end.

(** [a <= b] on floats. *)
Definition fle (a b : float) : Prop :=
  match a, b with
  | Fin x, Fin y => x <= y
  | NInf, (Fin _ | PInf | NInf) => True
  | (Fin _ | PInf), PInf => True
  | _, _ => False
  end.

(** The parameter vector lies in the box of the bounds. *)
Definition feasible (params : list float) (bounds : list (float * float)) : Prop :=
  Forall2 (fun p bd => fle (fst bd) p /\ fle p (snd bd)) params bounds.

(** An optimiser that returns [res] whatever it is asked. *)
Definition constant_minimizer (res : OptimizeResult.t) : minimizer :=
  fun _ _ _ _ _ _ => Ok res.


(** Small inputs on which the statements are exercised: one or two radii,
    and optimiser results with six parameters. *)
Module Sample.

Definition one_radius : unyt_array :=
  mk_unyt_array [Fin 1] "dimensionless".

Definition two_radii : unyt_array :=
  mk_unyt_array [Fin 1; Fin 2] "dimensionless".

Definition one_density : unyt_array :=
  mk_unyt_array [Fin 1] "cm**-3".

Definition two_densities : unyt_array :=
  mk_unyt_array [Fin 1; Fin 0.5] "cm**-3".

Definition fit (converged : bool) : OptimizeResult.t :=
  OptimizeResult.mk [Fin 1; Fin 1; Fin 1; Fin 1; Fin 1; Fin 1] converged
    (list_byte_of_string "STOP") 3.

(** A box of bounds with a negative normalisation, a starting vector in
    it, and a result of the optimiser at that point of the box. *)
Definition negative_start : list float :=
  [Fin (-1); Fin 1; Fin 1; Fin 0; Fin 0; Fin 0].

Definition negative_bounds : list (float * float) :=
  [(Fin (-2), Fin (-1)); (Fin 0.5, Fin 2); (Fin 0.5, Fin 2);
   (Fin 0, Fin 1); (Fin 0, Fin 1); (Fin 0, Fin 1)].

Definition negative_fit : OptimizeResult.t :=
  OptimizeResult.mk negative_start false (list_byte_of_string "STOP") 0.

(** The conversion to [float32] on values it leaves unchanged, as are the
    parameters of [fit]. *)
Definition exact (v : float) : float := v.

(** The object [VikhlininProfile(two_radii, two_densities)] when the
    optimiser returns [fit converged]. *)
Definition fitted (converged : bool) : VikhlininProfile :=
  mk_profile
    (mk_constructed two_radii two_densities
       starting_parameters_default parameter_bounds_default)
    (fit converged)
    (map (fun r =>
            (Fin 10 ** flog10 (spec_value (Fin 1) (Fin 1) (Fin 1)
                                 (Fin 1) (Fin 1) (Fin 1) r))%fl)
       [Fin 1; Fin 2])
    (mk_unyt_quantity (Fin 1) float32 "cm**-3")
    (mk_unyt_quantity (Fin 1) float32 "dimensionless")
    (mk_unyt_quantity (Fin 1) float32 "dimensionless")
    (Fin 1) (Fin 1) (Fin 1)
    converged "STOP" 3.

End Sample.

(** The call that [density_fit] makes for the object [self]. *)
Definition fit_call (minimize : minimizer) (self : Constructed)
  : result OptimizeResult.t :=
  minimize residuals_density (starting_parameters self)
    (np_log10 (values (density_profile self)), values (radii self))
    "L-BFGS-B"%string (parameter_bounds self)
    (mk_options (Fin 1e4) (Fin 1e-15)).

(** Splits on every comparison of reals that a float operation makes. *)
Ltac float_cases :=
  repeat match goal with
    | |- context [Rlt_dec ?u ?v] => destruct (Rlt_dec u v)
    | |- context [Req_dec_T ?u ?v] => destruct (Req_dec_T u v)
    end;
  try reflexivity; try (exfalso; nra).

(* ================================================================== *)
(** * Arrays: broadcasting *)
(* ================================================================== *)

Lemma arr_op_same_shape (op : float -> float -> float) (a b : ndarray) :
  length a = length b -> arr_op op a b = Ok (zip_with op a b).
Proof.
  intros H. unfold arr_op. rewrite H, Nat.eqb_refl. reflexivity.
Qed.

Lemma zip_with_map (op : float -> float -> float) (f g : float -> float)
    (a : ndarray) :
  zip_with op (map f a) (map g a) = map (fun r => op (f r) (g r)) a.
Proof.
  induction a as [|r a IH]; simpl; [reflexivity | now rewrite IH].
Qed.

Lemma arr_op_map (op : float -> float -> float) (f g : float -> float)
    (a : ndarray) :
  arr_op op (map f a) (map g a) = Ok (map (fun r => op (f r) (g r)) a).
Proof.
  rewrite arr_op_same_shape by now rewrite !length_map.
  now rewrite zip_with_map.
Qed.

(* ================================================================== *)
(** * The model, element by element *)
(* ================================================================== *)

Lemma model_linear_elementwise (radius : ndarray) (n0 rc rs a b e : float) :
  vikhlinin_density_model radius n0 rc rs a b e false
  = Ok (map (spec_value n0 rc rs a b e) radius).
Proof.
  unfold vikhlinin_density_model, arr_op_s, s_op_arr.
  rewrite !map_map. rewrite arr_op_map. simpl.
  rewrite (arr_op_map fdiv
             (fun r => (n0 * (r / rc) ** (- a / Fin 2)
                        / (Fin 1 + (r / rc) ** Fin 2)
                            ** (Fin 3 * b / Fin 2 - a / Fin 4))%fl)).
  reflexivity.
Qed.

Lemma model_log_elementwise (radius : ndarray) (n0 rc rs a b e : float) :
  vikhlinin_density_model radius n0 rc rs a b e true
  = Ok (map (fun r => flog10 (spec_value n0 rc rs a b e r)) radius).
Proof.
  unfold vikhlinin_density_model, arr_op_s, s_op_arr, np_log10.
  rewrite !map_map. rewrite arr_op_map. simpl.
  rewrite (arr_op_map fdiv
             (fun r => (n0 * (r / rc) ** (- a / Fin 2)
                        / (Fin 1 + (r / rc) ** Fin 2)
                            ** (Fin 3 * b / Fin 2 - a / Fin 4))%fl)).
  simpl. now rewrite map_map.
Qed.

(* ================================================================== *)
(** * Float arithmetic on finite operands *)
(* ================================================================== *)

Lemma fdiv_finite (x y : R) : y <> 0 -> (Fin x / Fin y)%fl = Fin (x / y).
Proof.
  intros Hy. simpl. destruct (Req_dec_T y 0); [contradiction | reflexivity].
Qed.

Lemma fpow_exponent_zero (a : float) (y : R) : y = 0 -> (a ** Fin y)%fl = Fin 1.
Proof.
  intros Hy. destruct a; simpl; destruct (Req_dec_T y 0); try contradiction;
    reflexivity.
Qed.

Lemma fpow_positive_base (x y : R) : 0 < x -> (Fin x ** Fin y)%fl = Fin (Rpower x y).
Proof.
  intros Hx. simpl.
  destruct (Req_dec_T y 0) as [Hy | Hy].
  - subst y. now rewrite Rpower_O.
  - destruct (Req_dec_T x 1) as [H1 | H1].
    + subst x. unfold Rpower. now rewrite ln_1, Rmult_0_r, exp_0.
    + unfold pow_finite. destruct (Rlt_dec 0 x); [reflexivity | contradiction].
Qed.

Lemma Rpower_two (x : R) : 0 < x -> Rpower x 2 = x ^ 2.
Proof.
  intros H. replace 2 with (INR 2) by (simpl; lra). now apply Rpower_pow.
Qed.

Lemma Rpower_three (x : R) : 0 < x -> Rpower x 3 = x ^ 3.
Proof.
  intros H. replace 3 with (INR 3) by (simpl; lra). now apply Rpower_pow.
Qed.

Lemma ln_10_pos : 0 < ln 10.
Proof. rewrite <- ln_1. apply ln_increasing; lra. Qed.

(** With positive radius and scale radii every intermediate value is a
    positive real and the model is the real formula. *)
Lemma spec_value_finite (n0 rc rs a b e r : R) :
  0 < rc -> 0 < rs -> 0 < r ->
  spec_value (Fin n0) (Fin rc) (Fin rs) (Fin a) (Fin b) (Fin e) (Fin r)
  = Fin (density n0 rc rs a b e r).
Proof.
  intros Hrc Hrs Hr.
  assert (Hx : 0 < r / rc) by (apply Rdiv_lt_0_compat; assumption).
  assert (Hs : 0 < r / rs) by (apply Rdiv_lt_0_compat; assumption).
  unfold spec_value, density.
  rewrite !(fdiv_finite r) by lra.
  cbn [fneg fmul].
  rewrite !(fdiv_finite _ 2), (fdiv_finite _ 4), (fdiv_finite _ 6) by lra.
  unfold fsub. cbn [fneg fadd].
  rewrite !(fpow_positive_base (r / rc)) by assumption.
  rewrite (fpow_positive_base (r / rs)) by assumption.
  cbn [fadd].
  assert (H2 : 0 < 1 + Rpower (r / rc) 2)
    by (unfold Rpower; pose proof (exp_pos (2 * ln (r / rc))); lra).
  assert (H3 : 0 < 1 + Rpower (r / rs) 3)
    by (unfold Rpower; pose proof (exp_pos (3 * ln (r / rs))); lra).
  rewrite !fpow_positive_base by assumption.
  cbn [fmul].
  rewrite !fdiv_finite by (unfold Rpower; apply Rgt_not_eq, exp_pos).
  reflexivity.
Qed.

(* ================================================================== *)
(** * The real formula decreases with the radius *)
(* ================================================================== *)

Lemma density_exp (n0 rc rs a b e r : R) :
  0 < rc -> 0 < rs -> 0 < r ->
  density n0 rc rs a b e r = n0 * exp (log_slope rc rs a b e r).
Proof.
  intros Hrc Hrs Hr.
  assert (Hx : 0 < r / rc) by (apply Rdiv_lt_0_compat; assumption).
  assert (Hs : 0 < r / rs) by (apply Rdiv_lt_0_compat; assumption).
  unfold density, log_slope.
  rewrite (Rpower_two _ Hx), (Rpower_three _ Hs).
  unfold Rpower, Rdiv at 1 2.
  rewrite Rmult_assoc, Rmult_assoc.
  rewrite <- !exp_Ropp, <- !exp_plus.
  apply f_equal, f_equal. field.
Qed.

Lemma density_pos (n0 rc rs a b e r : R) :
  0 < n0 -> 0 < rc -> 0 < rs -> 0 < r -> 0 < density n0 rc rs a b e r.
Proof.
  intros Hn Hrc Hrs Hr. rewrite density_exp by assumption.
  apply Rmult_lt_0_compat; [assumption | apply exp_pos].
Qed.

Lemma ln_square_ratio (x : R) :
  0 < x -> 2 * ln x - ln (1 + x ^ 2) = - ln (1 + / x ^ 2).
Proof.
  intros Hx.
  assert (H2 : 0 < x ^ 2) by (apply pow_lt; assumption).
  assert (Hi : 0 < / x ^ 2) by (apply Rinv_0_lt_compat; assumption).
  replace (1 + x ^ 2) with (x ^ 2 * (1 + / x ^ 2)) by (field; lra).
  rewrite ln_mult by lra.
  rewrite ln_pow by assumption. simpl INR. lra.
Qed.

Lemma log_slope_decreasing (rc rs a b e r1 r2 : R) :
  0 < rc -> 0 < rs -> 0 <= a -> 0 <= b -> 0 <= e -> 0 < r1 -> r1 < r2 ->
  log_slope rc rs a b e r2 <= log_slope rc rs a b e r1
  /\ (0 < a \/ 0 < b \/ 0 < e ->
      log_slope rc rs a b e r2 < log_slope rc rs a b e r1).
Proof.
  intros Hrc Hrs Ha Hb He H1 H12.
  assert (Hx1 : 0 < r1 / rc) by (apply Rdiv_lt_0_compat; lra).
  assert (Hs1 : 0 < r1 / rs) by (apply Rdiv_lt_0_compat; lra).
  assert (Hx : r1 / rc < r2 / rc).
  { unfold Rdiv. apply Rmult_lt_compat_r; [apply Rinv_0_lt_compat|]; assumption. }
  assert (Hs : r1 / rs < r2 / rs).
  { unfold Rdiv. apply Rmult_lt_compat_r; [apply Rinv_0_lt_compat|]; assumption. }
  unfold log_slope.
  rewrite !ln_square_ratio by lra.
  set (x1 := r1 / rc) in *. set (x2 := r2 / rc) in *.
  set (s1 := r1 / rs) in *. set (s2 := r2 / rs) in *.
  assert (Hsq : x1 ^ 2 < x2 ^ 2) by nra.
  assert (Hcu : s1 ^ 3 < s2 ^ 3).
  { assert (s1 ^ 2 < s2 ^ 2) by nra. nra. }
  assert (L2 : ln (1 + x1 ^ 2) < ln (1 + x2 ^ 2)) by (apply ln_increasing; nra).
  assert (L3 : ln (1 + s1 ^ 3) < ln (1 + s2 ^ 3)).
  { apply ln_increasing; [|lra].
    assert (0 < s1 ^ 3) by (apply pow_lt; assumption). lra. }
  assert (L1 : ln (1 + / x2 ^ 2) < ln (1 + / x1 ^ 2)).
  { assert (0 < x1 ^ 2) by (apply pow_lt; assumption).
    assert (0 < / x2 ^ 2) by (apply Rinv_0_lt_compat; lra).
    apply ln_increasing; [lra|].
    apply Rplus_lt_compat_l. apply Rinv_lt_contravar; [nra | assumption]. }
  split; [|intros [Hp | [Hp | Hp]]]; nra.
Qed.

Lemma density_monotone (n0 rc rs a b e r1 r2 : R) :
  0 < n0 -> 0 < rc -> 0 < rs -> 0 <= a -> 0 <= b -> 0 <= e ->
  0 < r1 -> r1 < r2 ->
  density n0 rc rs a b e r2 <= density n0 rc rs a b e r1
  /\ (0 < a \/ 0 < b \/ 0 < e ->
      density n0 rc rs a b e r2 < density n0 rc rs a b e r1).
Proof.
  intros Hn Hrc Hrs Ha Hb He H1 H12.
  rewrite !density_exp by lra.
  destruct (log_slope_decreasing rc rs a b e r1 r2) as [Hle Hlt]; try assumption.
  split.
  - apply Rmult_le_compat_l; [lra|].
    destruct Hle as [Hle | Heq].
    + left. now apply exp_increasing.
    + rewrite Heq. right. reflexivity.
  - intros Hp. apply Rmult_lt_compat_l; [assumption|].
    apply exp_increasing. auto.
Qed.

(* ================================================================== *)
(** * Scaling by a positive factor *)
(* ================================================================== *)

Lemma fmul_scale_assoc (k : R) (a b : float) :
  0 < k -> (Fin k * (a * b))%fl = ((Fin k * a) * b)%fl.
Proof.
  intros Hk. destruct a as [x| | |], b as [y| | |]; simpl;
    unfold signed_inf; float_cases.
  all: try now rewrite Rmult_assoc.
  all: simpl; unfold signed_inf; float_cases.
Qed.

Lemma fmul_scale_div (k : R) (a b : float) :
  0 < k -> (Fin k * (a / b))%fl = ((Fin k * a) / b)%fl.
Proof.
  intros Hk. destruct a as [x| | |], b as [y| | |]; simpl;
    unfold signed_inf; float_cases; simpl; unfold signed_inf; float_cases.
  all: apply f_equal; first [ring | field; assumption].
Qed.

Lemma spec_value_scale (k : R) (n0 rc rs a b e r : float) :
  0 < k ->
  spec_value (Fin k * n0) rc rs a b e r
  = (Fin k * spec_value n0 rc rs a b e r)%fl.
Proof.
  intros Hk. unfold spec_value.
  now rewrite !fmul_scale_div, fmul_scale_assoc.
Qed.

(** With the three exponents at zero the model is its normalisation. *)
Lemma spec_value_flat (n0 : R) (rc rs r : float) :
  spec_value (Fin n0) rc rs (Fin 0) (Fin 0) (Fin 0) r = Fin n0.
Proof.
  unfold spec_value. cbn [fneg fmul].
  rewrite !fdiv_finite by lra. unfold fsub. cbn [fneg fadd].
  rewrite !fpow_exponent_zero by lra.
  cbn [fmul]. rewrite !fdiv_finite by lra.
  apply f_equal. field.
Qed.

(* ================================================================== *)
(** * Properties of the model function *)
(* ================================================================== *)

(** C1. Evaluated with [yield_log=False] on any array of radii (positive or
    not) and any six parameters, the model returns, element by element,
    [n_0 * (r/r_core)^(-alpha/2) / (1 + (r/r_core)^2)^(3*beta/2 - alpha/4)
     / (1 + (r/r_scale)^3)^(epsilon/6)], and never raises. *)
Theorem model_returns_formula (radius : ndarray) (n0 rc rs a b e : float) :
  vikhlinin_density_model radius n0 rc rs a b e false
  = Ok (map (fun r =>
               (n0 * (r / rc) ** (- a / Fin 2)
                / (Fin 1 + (r / rc) ** Fin 2) ** (Fin 3 * b / Fin 2 - a / Fin 4)
                / (Fin 1 + (r / rs) ** Fin 3) ** (e / Fin 6))%fl)
          radius).
Proof.
  exact (model_linear_elementwise radius n0 rc rs a b e).
Qed.

(** C3. For every array of radii and every six parameters, the evaluation
    with [yield_log=True] is the base-10 logarithm, element by element, of
    the evaluation with [yield_log=False]. *)
Theorem model_log_is_log10_of_linear (radius : ndarray) (n0 rc rs a b e : float) :
  vikhlinin_density_model radius n0 rc rs a b e true
  = fmap np_log10 (vikhlinin_density_model radius n0 rc rs a b e false).
Proof.
  rewrite model_log_elementwise, model_linear_elementwise.
  unfold fmap, np_log10. simpl. now rewrite map_map.
Qed.

(** X23. In exact arithmetic, for every array of radii, every six
    parameters and every positive real [k], the non-log model at
    normalisation [k * n_0] is [k] times the non-log model at normalisation
    [n_0].  (The products and quotients are those of the reals; the
    rounding and the overflow of binary64 are not part of the statement.) *)
Theorem model_homogeneous_in_n_0 (radius : ndarray) (n0 rc rs a b e : float)
    (k : R) :
  0 < k ->
  vikhlinin_density_model radius (Fin k * n0)%fl rc rs a b e false
  = fmap (s_op_arr fmul (Fin k))
      (vikhlinin_density_model radius n0 rc rs a b e false).
Proof.
  intros Hk. rewrite !model_linear_elementwise.
  unfold fmap, s_op_arr. simpl. rewrite map_map.
  apply f_equal, map_ext. intros r. now apply spec_value_scale.
Qed.

(** The statement at two radii, the normalisation 3 and the factor 2. *)
Lemma model_homogeneous_in_n_0_witness :
  vikhlinin_density_model [Fin 1; Fin 2] (Fin 2 * Fin 3)%fl
    (Fin 1) (Fin 1) (Fin 1) (Fin 1) (Fin 1) false
  = fmap (s_op_arr fmul (Fin 2))
      (vikhlinin_density_model [Fin 1; Fin 2] (Fin 3)
         (Fin 1) (Fin 1) (Fin 1) (Fin 1) (Fin 1) false).
Proof.
  apply (model_homogeneous_in_n_0 [Fin 1; Fin 2] (Fin 3)
           (Fin 1) (Fin 1) (Fin 1) (Fin 1) (Fin 1) 2).
  exact Rlt_0_2.
Defined.

(** C6, as stated, fails.  The vector [(1, 1, 1, 0, 0, 0)] lies in the
    default bounds, and with it the model takes the value 1 at the radius 1
    and at the radius 2. *)
Lemma flat_profile_is_not_decreasing :
  feasible [Fin 1; Fin 1; Fin 1; Fin 0; Fin 0; Fin 0] parameter_bounds_default
  /\ vikhlinin_density_model [Fin 1; Fin 2]
       (Fin 1) (Fin 1) (Fin 1) (Fin 0) (Fin 0) (Fin 0) false
     = Ok [Fin 1; Fin 1]
  /\ ~ 1 < 1.
Proof.
  split; [|split].
  - unfold feasible, parameter_bounds_default.
    repeat (apply Forall2_cons; [simpl; split; trivial; lra|]).
    apply Forall2_nil.
  - rewrite model_linear_elementwise. simpl map.
    now rewrite !spec_value_flat.
  - apply Rlt_irrefl.
Qed.

(** C6, amended. In exact arithmetic, with a positive normalisation,
    positive core and scale radii and nonnegative [alpha], [beta],
    [epsilon], the non-log model at two radii [0 < r1 < r2] takes positive
    real values, the one at [r2] at most the one at [r1], and strictly less
    as soon as one of the three exponents is positive.  (The values are the
    formula evaluated over the reals; the rounding of binary64, which can
    merge two close values, is not part of the statement.) *)
Theorem model_decreasing_in_radius (n0 rc rs a b e r1 r2 : R) :
  0 < n0 -> 0 < rc -> 0 < rs -> 0 <= a -> 0 <= b -> 0 <= e ->
  0 < r1 -> r1 < r2 ->
  exists v1 v2 : R,
    vikhlinin_density_model [Fin r1; Fin r2]
      (Fin n0) (Fin rc) (Fin rs) (Fin a) (Fin b) (Fin e) false
    = Ok [Fin v1; Fin v2]
    /\ 0 < v2
    /\ v2 <= v1
    /\ (0 < a \/ 0 < b \/ 0 < e -> v2 < v1).
Proof.
  intros Hn Hrc Hrs Ha Hb He H1 H12.
  exists (density n0 rc rs a b e r1), (density n0 rc rs a b e r2).
  rewrite model_linear_elementwise. simpl map.
  rewrite !spec_value_finite by lra.
  destruct (density_monotone n0 rc rs a b e r1 r2) as [Hle Hlt]; try assumption.
  repeat split; try assumption.
  apply density_pos; lra.
Qed.

(** The statement at the radii 1 and 2 with every parameter equal to 1. *)
Lemma model_decreasing_in_radius_witness :
  exists v1 v2 : R,
    vikhlinin_density_model [Fin 1; Fin 2]
      (Fin 1) (Fin 1) (Fin 1) (Fin 1) (Fin 1) (Fin 1) false
    = Ok [Fin v1; Fin v2]
    /\ 0 < v2
    /\ v2 <= v1
    /\ (0 < 1 \/ 0 < 1 \/ 0 < 1 -> v2 < v1).
Proof.
  apply (model_decreasing_in_radius 1 1 1 1 1 1 1 2); lra.
Defined.

(* ================================================================== *)
(** * What a construction stores *)
(* ================================================================== *)

Section Fit.

Variable minimize : minimizer.
Variable to_float32 : float -> float.

Lemma density_fit_returns (self : Constructed) (res : OptimizeResult.t) :
  fit_call minimize self = Ok res ->
  density_fit minimize self (values (radii self))
    (np_log10 (values (density_profile self)))
  = ((if OptimizeResult.success res then []
      else [RuntimeWarning did_not_succeed]), Ok res).
Proof.
  unfold fit_call, density_fit. intros ->. simpl.
  destruct (OptimizeResult.success res); reflexivity.
Qed.

Lemma density_fit_raises (self : Constructed) (err : exn) :
  fit_call minimize self = Raise err ->
  density_fit minimize self (values (radii self))
    (np_log10 (values (density_profile self)))
  = ([], Raise err).
Proof.
  unfold fit_call, density_fit. intros ->. reflexivity.
Qed.

(** The fit of a well-formed optimiser result: six parameters and an
    ASCII termination message. *)
Lemma run_hse_fit_stores (self : Constructed) (res : OptimizeResult.t)
    (p0 p1 p2 p3 p4 p5 : float) :
  fit_call minimize self = Ok res ->
  OptimizeResult.x res = [p0; p1; p2; p3; p4; p5] ->
  forallb is_ascii (OptimizeResult.message res) = true ->
  run_hse_fit minimize to_float32 self
  = ((if OptimizeResult.success res then []
      else [RuntimeWarning did_not_succeed]),
     Ok (mk_profile self res
           (map (fun r => (Fin 10 ** flog10 (spec_value p0 p1 p2 p3 p4 p5 r))%fl)
              (values (radii self)))
           (mk_unyt_quantity (to_float32 p0) float32 (units (density_profile self)))
           (mk_unyt_quantity (to_float32 p1) float32 (units (radii self)))
           (mk_unyt_quantity (to_float32 p2) float32 (units (radii self)))
           p3 p4 p5
           (OptimizeResult.success res)
           (string_of_list_byte (OptimizeResult.message res))
           (OptimizeResult.nit res))).
Proof.
  intros Hcall Hx Hmsg. unfold run_hse_fit.
  rewrite (density_fit_returns _ _ Hcall). unfold bind_py at 1.
  rewrite Hx. unfold vikhlinin_density_model_star.
  rewrite model_log_elementwise. unfold lift, bind_py at 1.
  unfold decode_ascii. rewrite Hmsg. unfold bind_py, ret, s_op_arr.
  rewrite map_map, !app_nil_r. reflexivity.
Qed.

(** Conversely, an object exists only if the optimiser returned such a
    result, and then it is the object above. *)
Lemma run_hse_fit_inv (self : Constructed) (w : list warning)
    (est : VikhlininProfile) :
  run_hse_fit minimize to_float32 self = (w, Ok est) ->
  exists res p0 p1 p2 p3 p4 p5,
    fit_call minimize self = Ok res
    /\ OptimizeResult.x res = [p0; p1; p2; p3; p4; p5]
    /\ forallb is_ascii (OptimizeResult.message res) = true.
Proof.
  intros Hrun.
  destruct (fit_call minimize self) as [res | err] eqn:Hcall.
  - exists res. unfold run_hse_fit in Hrun.
    rewrite (density_fit_returns _ _ Hcall) in Hrun. unfold bind_py at 1 in Hrun.
    destruct (OptimizeResult.x res) as [|p0 [|p1 [|p2 [|p3 [|p4 [|p5 [|p6 [|p7 l]]]]]]]]
      eqn:Hx; unfold vikhlinin_density_model_star, lift, bind_py in Hrun;
      try (destruct (if OptimizeResult.success res then _ else _);
           discriminate Hrun).
    + exists p0, p1, p2, p3, p4, p5. repeat split.
      rewrite model_log_elementwise in Hrun.
      unfold decode_ascii in Hrun.
      destruct (forallb is_ascii (OptimizeResult.message res)); [reflexivity|].
      discriminate Hrun.
    + destruct (vikhlinin_density_model _ _ _ _ _ _ _ _);
        destruct (if OptimizeResult.success res then _ else _); discriminate Hrun.
  - unfold run_hse_fit in Hrun.
    rewrite (density_fit_raises _ _ Hcall) in Hrun. discriminate Hrun.
Qed.

End Fit.

(* ================================================================== *)
(** * Ten to the power of a logarithm *)
(* ================================================================== *)

Lemma exp10_finite (t : R) : (Fin 10 ** Fin t)%fl = Fin (Rpower 10 t).
Proof. apply fpow_positive_base. lra. Qed.

Lemma exp10_log10 (v : float) : (Fin 10 ** flog10 v)%fl = through_log10 v.
Proof.
  destruct v as [r| | |]; simpl flog10; unfold through_log10.
  - destruct (Rlt_dec 0 r) as [Hpos | Hnpos].
    + rewrite exp10_finite. destruct (Rlt_dec r 0); [lra|].
      apply f_equal. unfold Rpower.
      replace (ln r / ln 10 * ln 10) with (ln r)
        by (field; apply Rgt_not_eq, ln_10_pos).
      now apply exp_ln.
    + destruct (Req_dec_T r 0) as [Hz | Hnz].
      * subst r. destruct (Rlt_dec 0 0); [lra|].
        simpl. destruct (Req_dec_T 10 1); [lra|].
        unfold pow_inf_exponent. rewrite Rabs_pos_eq by lra.
        destruct (Rlt_dec 10 1); [lra|]. destruct (Req_dec_T 10 1); [lra|].
        reflexivity.
      * destruct (Rlt_dec r 0); [|lra].
        simpl. destruct (Req_dec_T 10 1); [lra | reflexivity].
  - simpl. destruct (Req_dec_T 10 1); [lra|].
    unfold pow_inf_exponent. rewrite Rabs_pos_eq by lra.
    destruct (Rlt_dec 10 1); [lra|]. destruct (Req_dec_T 10 1); [lra|].
    reflexivity.
  - simpl. destruct (Req_dec_T 10 1); [lra | reflexivity].
  - simpl. destruct (Req_dec_T 10 1); [lra | reflexivity].
Qed.

Lemma through_log10_nonnegative (v : float) :
  nonnegative v -> through_log10 v = v.
Proof.
  destruct v as [r| | |]; simpl; intros H; try reflexivity; try contradiction.
  destruct (Rlt_dec r 0); [lra | reflexivity].
Qed.

Lemma exp10_positive (y : float) : is_finite y -> positive (Fin 10 ** y)%fl.
Proof.
  intros [t ->]. exists (Rpower 10 t). split; [apply exp10_finite|].
  unfold Rpower. apply exp_pos.
Qed.

(* ================================================================== *)
(** * Properties of the fitted object *)
(* ================================================================== *)

Lemma fle_between (lo hi : R) (p : float) :
  fle (Fin lo) p -> fle p (Fin hi) -> exists v, p = Fin v /\ lo <= v <= hi.
Proof.
  destruct p as [v| | |]; simpl; intros Hlo Hhi; try contradiction.
  exists v. split; [reflexivity | lra].
Qed.

Lemma density_neg (n0 rc rs a b e r : R) :
  n0 < 0 -> 0 < rc -> 0 < rs -> 0 < r -> density n0 rc rs a b e r < 0.
Proof.
  intros Hn Hrc Hrs Hr. rewrite density_exp by assumption.
  pose proof (exp_pos (log_slope rc rs a b e r)). nra.
Qed.

(** In the box [Sample.negative_bounds] it does not matter which point the
    optimiser returns: the non-log model at the radius 1 is a negative real
    and the stored curve is [NaN]. *)
Lemma negative_box_curve_is_nan (minimize : minimizer)
    (to_float32 : float -> float) (res : OptimizeResult.t) :
  fit_call minimize
    (mk_constructed Sample.one_radius Sample.one_density
       Sample.negative_start Sample.negative_bounds) = Ok res ->
  feasible (OptimizeResult.x res) Sample.negative_bounds ->
  forallb is_ascii (OptimizeResult.message res) = true ->
  exists w est,
    __init__ minimize to_float32 Sample.one_radius Sample.one_density
      (Some Sample.negative_start) (Some Sample.negative_bounds) = (w, Ok est)
    /\ density_profile_hse est = [NaN]
    /\ exists p0 p1 p2 p3 p4 p5 v,
         OptimizeResult.x (density_fit_params est) = [p0; p1; p2; p3; p4; p5]
         /\ vikhlinin_density_model (values Sample.one_radius)
              p0 p1 p2 p3 p4 p5 false = Ok [Fin v]
         /\ v < 0.
Proof.
  intros Hcall Hbox Hmsg. unfold feasible, Sample.negative_bounds in Hbox.
  destruct (OptimizeResult.x res) as [|p0 [|p1 [|p2 [|p3 [|p4 [|p5 [|p6 l]]]]]]]
    eqn:Hx;
    repeat match goal with
      | H : Forall2 _ _ _ |- _ => inversion H; clear H; subst
      end.
  repeat match goal with
    | H : fle _ _ /\ fle _ _ |- _ => destruct H
    end.
  cbn [fst snd] in *.
  repeat match goal with
    | H1 : fle (Fin ?lo) ?p, H2 : fle ?p (Fin ?hi) |- _ =>
        destruct (fle_between lo hi p H1 H2) as (? & -> & ?); clear H1 H2
    end.
  eexists. eexists. split; [|split].
  - unfold __init__. cbn [default_arg].
    apply (run_hse_fit_stores _ _ _ res _ _ _ _ _ _ Hcall Hx Hmsg).
  - unfold Sample.one_radius. cbn [density_profile_hse radii values map].
    rewrite spec_value_finite, exp10_log10 by lra. simpl.
    match goal with
    | |- context [Rlt_dec ?d 0] => destruct (Rlt_dec d 0) as [_ | Hd]
    end; [reflexivity|].
    exfalso. apply Hd. apply density_neg; lra.
  - do 6 eexists. eexists. cbn [density_fit_params].
    split; [exact Hx|]. split.
    + rewrite model_linear_elementwise. simpl.
      rewrite spec_value_finite by lra. reflexivity.
    + apply density_neg; lra.
Qed.

(** C2, as stated, fails.  In a box of bounds whose normalisation is
    negative, let the optimiser return the vector [(-1, 1, 1, 0, 0, 0)] of
    the box: the object stores [NaN] as fitted curve at the radius 1, where
    the non-log model evaluates to [-1]. *)
Lemma fitted_curve_differs_from_linear_model :
  feasible (OptimizeResult.x Sample.negative_fit) Sample.negative_bounds
  /\ exists w est,
       __init__ (constant_minimizer Sample.negative_fit) Sample.exact
         Sample.one_radius Sample.one_density
         (Some Sample.negative_start) (Some Sample.negative_bounds)
       = (w, Ok est)
       /\ OptimizeResult.x (density_fit_params est)
          = [Fin (-1); Fin 1; Fin 1; Fin 0; Fin 0; Fin 0]
       /\ density_profile_hse est = [NaN]
       /\ vikhlinin_density_model (values Sample.one_radius)
            (Fin (-1)) (Fin 1) (Fin 1) (Fin 0) (Fin 0) (Fin 0) false
          = Ok [Fin (-1)].
Proof.
  split.
  - unfold feasible. simpl.
    repeat (apply Forall2_cons; [simpl; lra|]). apply Forall2_nil.
  - eexists. eexists. split; [|split; [|split]].
    + unfold __init__.
      apply (run_hse_fit_stores _ _ _ Sample.negative_fit
               (Fin (-1)) (Fin 1) (Fin 1) (Fin 0) (Fin 0) (Fin 0));
        reflexivity.
    + reflexivity.
    + unfold Sample.one_radius. cbn [density_profile_hse radii values map].
      rewrite spec_value_flat, exp10_log10. simpl.
      destruct (Rlt_dec (-1) 0); [reflexivity | lra].
    + rewrite model_linear_elementwise. simpl. now rewrite spec_value_flat.
Qed.

(** C2, amended. The stored fitted curve is ten to the power, element by
    element, of the log-form model at the input radii and the fitted
    parameters.  It is the non-log model passed through [10 ** log10]: equal
    to it wherever the non-log value is not negative, [NaN] elsewhere. *)
Theorem fitted_curve_is_exp10_of_log_model (minimize : minimizer)
    (to_float32 : float -> float) (radii0 density0 : unyt_array)
    (start_params : option (list float))
    (param_bounds : option (list (float * float)))
    (w : list warning) (est : VikhlininProfile) :
  __init__ minimize to_float32 radii0 density0 start_params param_bounds
  = (w, Ok est) ->
  exists p0 p1 p2 p3 p4 p5 log_model linear_model,
    OptimizeResult.x (density_fit_params est) = [p0; p1; p2; p3; p4; p5]
    /\ vikhlinin_density_model (values radii0) p0 p1 p2 p3 p4 p5 true
       = Ok log_model
    /\ vikhlinin_density_model (values radii0) p0 p1 p2 p3 p4 p5 false
       = Ok linear_model
    /\ density_profile_hse est = s_op_arr fpow (Fin 10) log_model
    /\ density_profile_hse est = map through_log10 linear_model
    /\ (Forall nonnegative linear_model -> density_profile_hse est = linear_model).
Proof.
  unfold __init__. intros Hrun.
  destruct (run_hse_fit_inv _ _ _ _ _ Hrun)
    as (res & p0 & p1 & p2 & p3 & p4 & p5 & Hcall & Hx & Hmsg).
  rewrite (run_hse_fit_stores _ _ _ _ _ _ _ _ _ _ Hcall Hx Hmsg) in Hrun.
  injection Hrun as _ <-.
  cbn [density_profile_hse density_fit_params radii].
  exists p0, p1, p2, p3, p4, p5.
  eexists. eexists.
  split; [exact Hx|].
  split; [apply model_log_elementwise|].
  split; [apply model_linear_elementwise|].
  split; [unfold s_op_arr; now rewrite map_map|].
  assert (Heq : map (fun r => (Fin 10 ** flog10 (spec_value p0 p1 p2 p3 p4 p5 r))%fl)
                  (values radii0)
                = map through_log10
                    (map (spec_value p0 p1 p2 p3 p4 p5) (values radii0))).
  { rewrite map_map. apply map_ext. intros r. apply exp10_log10. }
  split; [exact Heq|].
  intros Hnn. etransitivity; [exact Heq|]. clear Heq.
  induction Hnn as [|v l Hv _ IH]; simpl; [reflexivity|].
  now rewrite through_log10_nonnegative, IH.
Qed.

(** The statement at the sample object of a convergent fit. *)
Lemma fitted_curve_is_exp10_of_log_model_witness :
  exists p0 p1 p2 p3 p4 p5 log_model linear_model,
    OptimizeResult.x (density_fit_params (Sample.fitted true))
    = [p0; p1; p2; p3; p4; p5]
    /\ vikhlinin_density_model (values Sample.two_radii) p0 p1 p2 p3 p4 p5 true
       = Ok log_model
    /\ vikhlinin_density_model (values Sample.two_radii) p0 p1 p2 p3 p4 p5 false
       = Ok linear_model
    /\ density_profile_hse (Sample.fitted true) = s_op_arr fpow (Fin 10) log_model
    /\ density_profile_hse (Sample.fitted true) = map through_log10 linear_model
    /\ (Forall nonnegative linear_model ->
        density_profile_hse (Sample.fitted true) = linear_model).
Proof.
  apply (fitted_curve_is_exp10_of_log_model
           (constant_minimizer (Sample.fit true)) Sample.exact
           Sample.two_radii Sample.two_densities None None
           [] (Sample.fitted true)).
  reflexivity.
Defined.

(** C9. For every constructed estimator whose log-form model, at the input
    radii and the fitted parameters, has only finite values, every element
    of the stored fitted curve is a positive real: it is ten to a finite
    power. *)
Theorem fitted_curve_positive (minimize : minimizer)
    (to_float32 : float -> float) (radii0 density0 : unyt_array)
    (start_params : option (list float))
    (param_bounds : option (list (float * float)))
    (w : list warning) (est : VikhlininProfile) (log_model : ndarray) :
  __init__ minimize to_float32 radii0 density0 start_params param_bounds
  = (w, Ok est) ->
  vikhlinin_density_model_star (values radii0)
    (OptimizeResult.x (density_fit_params est)) = Ok log_model ->
  Forall is_finite log_model ->
  Forall positive (density_profile_hse est).
Proof.
  unfold __init__. intros Hrun.
  destruct (run_hse_fit_inv _ _ _ _ _ Hrun)
    as (res & p0 & p1 & p2 & p3 & p4 & p5 & Hcall & Hx & Hmsg).
  rewrite (run_hse_fit_stores _ _ _ _ _ _ _ _ _ _ Hcall Hx Hmsg) in Hrun.
  injection Hrun as _ <-.
  cbn [density_profile_hse density_fit_params radii].
  rewrite Hx. unfold vikhlinin_density_model_star.
  rewrite model_log_elementwise. intros [= <-].
  rewrite Forall_map. intros Hfin. rewrite Forall_map.
  revert Hfin. apply Forall_impl. intros r. apply exp10_positive.
Qed.

(** The statement at the sample object, whose log-form model is finite. *)
Lemma fitted_curve_positive_witness :
  Forall positive (density_profile_hse (Sample.fitted true)).
Proof.
  apply (fitted_curve_positive
           (constant_minimizer (Sample.fit true)) Sample.exact
           Sample.two_radii Sample.two_densities None None
           [] (Sample.fitted true)
           (map (fun r => flog10 (spec_value (Fin 1) (Fin 1) (Fin 1)
                                    (Fin 1) (Fin 1) (Fin 1) r))
              [Fin 1; Fin 2])).
  - reflexivity.
  - reflexivity.
  - repeat apply Forall_cons; try apply Forall_nil.
    + rewrite spec_value_finite by lra.
      unfold flog10. destruct (Rlt_dec 0 (density 1 1 1 1 1 1 1)) as [_ | H].
      * eexists. reflexivity.
      * exfalso. apply H. apply density_pos; lra.
    + rewrite spec_value_finite by lra.
      unfold flog10. destruct (Rlt_dec 0 (density 1 1 1 1 1 1 2)) as [_ | H].
      * eexists. reflexivity.
      * exfalso. apply H. apply density_pos; lra.
Defined.

(** C8. After every construction the six fitted scalars, in the order
    [n_0, r_core, r_scale, alpha, beta, epsilon], are the six entries of the
    optimiser's [x]; [n_0] is stored as a [float32] quantity in the unit of
    the density profile, [r_core] and [r_scale] as [float32] quantities in
    the unit of the radii, and [alpha], [beta], [epsilon] are stored as they
    are, without unit or conversion. *)
Theorem fitted_parameters_unpacked (minimize : minimizer)
    (to_float32 : float -> float) (radii0 density0 : unyt_array)
    (start_params : option (list float))
    (param_bounds : option (list (float * float)))
    (w : list warning) (est : VikhlininProfile) :
  __init__ minimize to_float32 radii0 density0 start_params param_bounds
  = (w, Ok est) ->
  exists p0 p1 p2 p3 p4 p5,
    fit_call minimize (inputs est) = Ok (density_fit_params est)
    /\ OptimizeResult.x (density_fit_params est) = [p0; p1; p2; p3; p4; p5]
    /\ n_0 est = mk_unyt_quantity (to_float32 p0) float32 (units density0)
    /\ r_core est = mk_unyt_quantity (to_float32 p1) float32 (units radii0)
    /\ r_scale est = mk_unyt_quantity (to_float32 p2) float32 (units radii0)
    /\ alpha est = p3
    /\ beta est = p4
    /\ epsilon est = p5.
Proof.
  unfold __init__. intros Hrun.
  destruct (run_hse_fit_inv _ _ _ _ _ Hrun)
    as (res & p0 & p1 & p2 & p3 & p4 & p5 & Hcall & Hx & Hmsg).
  rewrite (run_hse_fit_stores _ _ _ _ _ _ _ _ _ _ Hcall Hx Hmsg) in Hrun.
  injection Hrun as _ <-.
  exists p0, p1, p2, p3, p4, p5. repeat split; assumption.
Qed.

(** The statement at the sample object of a convergent fit. *)
Lemma fitted_parameters_unpacked_witness :
  exists p0 p1 p2 p3 p4 p5,
    fit_call (constant_minimizer (Sample.fit true)) (inputs (Sample.fitted true))
    = Ok (density_fit_params (Sample.fitted true))
    /\ OptimizeResult.x (density_fit_params (Sample.fitted true))
       = [p0; p1; p2; p3; p4; p5]
    /\ n_0 (Sample.fitted true)
       = mk_unyt_quantity (Sample.exact p0) float32 (units Sample.two_densities)
    /\ r_core (Sample.fitted true)
       = mk_unyt_quantity (Sample.exact p1) float32 (units Sample.two_radii)
    /\ r_scale (Sample.fitted true)
       = mk_unyt_quantity (Sample.exact p2) float32 (units Sample.two_radii)
    /\ alpha (Sample.fitted true) = p3
    /\ beta (Sample.fitted true) = p4
    /\ epsilon (Sample.fitted true) = p5.
Proof.
  apply (fitted_parameters_unpacked
           (constant_minimizer (Sample.fit true)) Sample.exact
           Sample.two_radii Sample.two_densities None None
           [] (Sample.fitted true)).
  reflexivity.
Defined.

(** C7. When the caller omits the two optional arguments, the object is
    constructed with the starting vector [3e-3, 0.1, 0.6, 0.5, 0.4, 1.2] and
    with six pairs of bounds, [(0, inf)] for the first five parameters and
    [(0, 5)] for the sixth, and these are what the optimiser is called with. *)
Theorem default_arguments (minimize : minimizer)
    (to_float32 : float -> float) (radii0 density0 : unyt_array)
    (w : list warning) (est : VikhlininProfile) :
  __init__ minimize to_float32 radii0 density0 None None = (w, Ok est) ->
  starting_parameters (inputs est)
  = [Fin 3e-3; Fin 0.1; Fin 0.6; Fin 0.5; Fin 0.4; Fin 1.2]
  /\ parameter_bounds (inputs est)
     = [(Fin 0, PInf); (Fin 0, PInf); (Fin 0, PInf); (Fin 0, PInf);
        (Fin 0, PInf); (Fin 0, Fin 5)]
  /\ length (parameter_bounds (inputs est)) = 6%nat
  /\ minimize residuals_density
       [Fin 3e-3; Fin 0.1; Fin 0.6; Fin 0.5; Fin 0.4; Fin 1.2]
       (np_log10 (values density0), values radii0)
       "L-BFGS-B"%string
       [(Fin 0, PInf); (Fin 0, PInf); (Fin 0, PInf); (Fin 0, PInf);
        (Fin 0, PInf); (Fin 0, Fin 5)]
       (mk_options (Fin 1e4) (Fin 1e-15))
     = Ok (density_fit_params est).
Proof.
  unfold __init__. intros Hrun.
  destruct (run_hse_fit_inv _ _ _ _ _ Hrun)
    as (res & p0 & p1 & p2 & p3 & p4 & p5 & Hcall & Hx & Hmsg).
  rewrite (run_hse_fit_stores _ _ _ _ _ _ _ _ _ _ Hcall Hx Hmsg) in Hrun.
  injection Hrun as _ <-.
  repeat split. exact Hcall.
Qed.

(** The statement at the sample object, built with both arguments omitted. *)
Lemma default_arguments_witness :
  starting_parameters (inputs (Sample.fitted false))
  = [Fin 3e-3; Fin 0.1; Fin 0.6; Fin 0.5; Fin 0.4; Fin 1.2]
  /\ parameter_bounds (inputs (Sample.fitted false))
     = [(Fin 0, PInf); (Fin 0, PInf); (Fin 0, PInf); (Fin 0, PInf);
        (Fin 0, PInf); (Fin 0, Fin 5)]
  /\ length (parameter_bounds (inputs (Sample.fitted false))) = 6%nat
  /\ constant_minimizer (Sample.fit false) residuals_density
       [Fin 3e-3; Fin 0.1; Fin 0.6; Fin 0.5; Fin 0.4; Fin 1.2]
       (np_log10 (values Sample.two_densities), values Sample.two_radii)
       "L-BFGS-B"%string
       [(Fin 0, PInf); (Fin 0, PInf); (Fin 0, PInf); (Fin 0, PInf);
        (Fin 0, PInf); (Fin 0, Fin 5)]
       (mk_options (Fin 1e4) (Fin 1e-15))
     = Ok (density_fit_params (Sample.fitted false)).
Proof.
  apply (default_arguments
           (constant_minimizer (Sample.fit false)) Sample.exact
           Sample.two_radii Sample.two_densities
           [RuntimeWarning did_not_succeed] (Sample.fitted false)).
  reflexivity.
Defined.




(* ================================================================== *)
(** * The residual *)
(* ================================================================== *)

Lemma zip_with_diag (op : float -> float -> float) (a : ndarray) :
  zip_with op a a = map (fun v => op v v) a.
Proof.
  induction a as [|v a IH]; simpl; [reflexivity | now rewrite IH].
Qed.

Lemma fadd_zero_l (v : float) : (Fin 0 + v)%fl = v.
Proof. destruct v; simpl; try reflexivity. now rewrite Rplus_0_l. Qed.

Lemma fadd_zero_r (v : float) : (v + Fin 0)%fl = v.
Proof. destruct v; simpl; try reflexivity. now rewrite Rplus_0_r. Qed.

Lemma fadd_assoc (a b c : float) : (a + (b + c))%fl = ((a + b) + c)%fl.
Proof.
  destruct a, b, c; simpl; try reflexivity. now rewrite Rplus_assoc.
Qed.

Lemma fold_fadd_acc (l : ndarray) (acc : float) :
  fold_left fadd l acc = (acc + fold_left fadd l (Fin 0))%fl.
Proof.
  revert acc. induction l as [|v l IH]; intros acc; cbn [fold_left].
  - now rewrite fadd_zero_r.
  - rewrite (IH (acc + v)%fl), (IH (Fin 0 + v)%fl).
    now rewrite fadd_zero_l, fadd_assoc.
Qed.

Lemma np_sum_cons (v : float) (l : ndarray) :
  np_sum (v :: l) = (v + np_sum l)%fl.
Proof.
  unfold np_sum. cbn [fold_left]. now rewrite fold_fadd_acc, fadd_zero_l.
Qed.

Lemma np_sum_squares (prediction observed : ndarray) :
  length prediction = length observed ->
  np_sum (map (fun v => (v * v)%fl) (zip_with fsub prediction observed))
  = sum_squared_differences prediction observed.
Proof.
  revert observed.
  induction prediction as [|m prediction IH]; intros [|d observed] H;
    try discriminate H; try reflexivity.
  simpl map. rewrite np_sum_cons. simpl. rewrite IH; [reflexivity|].
  now injection H.
Qed.

Lemma residuals_density_value (p0 p1 p2 p3 p4 p5 : float)
    (density_data radius_data : ndarray) :
  length density_data = length radius_data ->
  residuals_density [p0; p1; p2; p3; p4; p5] density_data radius_data
  = Ok (sum_squared_differences
          (map (fun r => flog10 (spec_value p0 p1 p2 p3 p4 p5 r)) radius_data)
          density_data).
Proof.
  intros Hlen. unfold residuals_density, vikhlinin_density_model_star.
  rewrite model_log_elementwise. cbn [bind].
  assert (Hl : length (map (fun r => flog10 (spec_value p0 p1 p2 p3 p4 p5 r))
                         radius_data) = length density_data)
    by now rewrite length_map.
  rewrite arr_op_same_shape by exact Hl. cbn [bind].
  rewrite arr_op_same_shape by reflexivity. cbn [bind].
  rewrite zip_with_diag. now rewrite np_sum_squares.
Qed.

Lemma square_nan_or_nonnegative (v : float) :
  (v * v)%fl = NaN \/ nonnegative (v * v)%fl.
Proof.
  destruct v as [x| | |]; simpl; auto. right. nra.
Qed.

Lemma fadd_nan_or_nonnegative (a b : float) :
  a = NaN \/ nonnegative a -> b = NaN \/ nonnegative b ->
  (a + b)%fl = NaN \/ nonnegative (a + b)%fl.
Proof.
  intros [-> | Ha] [-> | Hb]; auto.
  - destruct a; auto.
  - destruct a, b; simpl in *; auto. right. lra.
Qed.

Lemma sum_squared_nan_or_nonnegative (prediction observed : ndarray) :
  sum_squared_differences prediction observed = NaN
  \/ nonnegative (sum_squared_differences prediction observed).
Proof.
  revert observed.
  induction prediction as [|m prediction IH]; intros [|d observed]; simpl;
    try (right; lra).
  apply fadd_nan_or_nonnegative; [apply square_nan_or_nonnegative | apply IH].
Qed.

Lemma sum_squared_finite (prediction observed : ndarray) :
  Forall is_finite prediction -> Forall is_finite observed ->
  exists t, sum_squared_differences prediction observed = Fin t /\ 0 <= t.
Proof.
  intros Hp. revert observed.
  induction Hp as [|m prediction [x ->] _ IH]; intros observed Ho.
  - exists 0. split; [reflexivity | lra].
  - destruct Ho as [|d observed [y ->] Ho].
    + exists 0. split; [reflexivity | lra].
    + destruct (IH observed Ho) as (t & Ht & Hpos).
      simpl. rewrite Ht. simpl.
      eexists. split; [reflexivity|].
      pose proof (Rle_0_sqr (x + - y)) as Hsq. unfold Rsqr in Hsq. lra.
Qed.

(** C4, as stated, fails.  With the normalisation [-1] the prediction at
    the radius 1 is the logarithm of a negative number; the residual against
    the observation 0 is [NaN], which is not a nonnegative number. *)
Lemma residual_of_negative_normalisation_is_nan :
  length [Fin 0] = length [Fin 1]
  /\ residuals_density [Fin (-1); Fin 1; Fin 1; Fin 0; Fin 0; Fin 0]
       [Fin 0] [Fin 1] = Ok NaN
  /\ ~ nonnegative NaN.
Proof.
  split; [reflexivity|]. split; [|intros []].
  rewrite residuals_density_value by reflexivity.
  simpl. rewrite spec_value_flat. simpl.
  destruct (Rlt_dec 0 (-1)); [lra|].
  destruct (Req_dec_T (-1) 0); [lra | reflexivity].
Qed.

(** C4, amended. For every six parameters and every pair of arrays of the
    same length, the residual function returns one scalar, the sum over the
    elements of the squared difference between the log-form model at the
    radii and the observed log-density.  That scalar is nonnegative (plus
    infinity included) or [NaN]. *)
Theorem residual_is_sum_of_squares (p0 p1 p2 p3 p4 p5 : float)
    (density_data radius_data : ndarray) :
  length density_data = length radius_data ->
  exists log_model s,
    vikhlinin_density_model radius_data p0 p1 p2 p3 p4 p5 true = Ok log_model
    /\ residuals_density [p0; p1; p2; p3; p4; p5] density_data radius_data
       = Ok s
    /\ s = sum_squared_differences log_model density_data
    /\ (s = NaN \/ nonnegative s).
Proof.
  intros Hlen. eexists. eexists.
  split; [apply model_log_elementwise|].
  split; [now apply residuals_density_value|].
  split; [reflexivity|].
  apply sum_squared_nan_or_nonnegative.
Qed.

(** The statement at two radii and two observations. *)
Lemma residual_is_sum_of_squares_witness :
  exists log_model s,
    vikhlinin_density_model [Fin 1; Fin 2]
      (Fin 1) (Fin 1) (Fin 1) (Fin 1) (Fin 1) (Fin 1) true = Ok log_model
    /\ residuals_density [Fin 1; Fin 1; Fin 1; Fin 1; Fin 1; Fin 1]
         [Fin 0; Fin (-1)] [Fin 1; Fin 2]
       = Ok s
    /\ s = sum_squared_differences log_model [Fin 0; Fin (-1)]
    /\ (s = NaN \/ nonnegative s).
Proof.
  apply (residual_is_sum_of_squares (Fin 1) (Fin 1) (Fin 1) (Fin 1) (Fin 1) (Fin 1)
           [Fin 0; Fin (-1)] [Fin 1; Fin 2]).
  reflexivity.
Defined.

(* ================================================================== *)
(** * Further properties of the model function *)
(* ================================================================== *)

Lemma model_elementwise (radius : ndarray) (n0 rc rs a b e : float)
    (yield_log : bool) :
  vikhlinin_density_model radius n0 rc rs a b e yield_log
  = Ok (map (fun r => if yield_log
                      then flog10 (spec_value n0 rc rs a b e r)
                      else spec_value n0 rc rs a b e r) radius).
Proof.
  destruct yield_log;
    [apply model_log_elementwise | apply model_linear_elementwise].
Qed.

(** X1. In both forms the model never raises, returns one value per radius,
    and treats the radii independently: the evaluation on two arrays put end
    to end is the two evaluations put end to end. *)
Theorem model_over_concatenation (radius1 radius2 : ndarray)
    (n0 rc rs a b e : float) (yield_log : bool) :
  exists out1 out2,
    vikhlinin_density_model radius1 n0 rc rs a b e yield_log = Ok out1
    /\ vikhlinin_density_model radius2 n0 rc rs a b e yield_log = Ok out2
    /\ vikhlinin_density_model (radius1 ++ radius2) n0 rc rs a b e yield_log
       = Ok (out1 ++ out2)
    /\ length out1 = length radius1
    /\ length out2 = length radius2.
Proof.
  rewrite !model_elementwise. eexists. eexists.
  split; [reflexivity|]. split; [reflexivity|].
  split; [now rewrite map_app|].
  now rewrite !length_map.
Qed.

(** X2. With a positive normalisation, positive core and scale radii and
    positive radii the non-log model is an array of positive reals, whatever
    the three exponents, and the log form is the array of their base-10
    logarithms, all finite. *)
Theorem model_positive_on_positive_input (radius : list R)
    (n0 rc rs a b e : R) :
  0 < n0 -> 0 < rc -> 0 < rs -> Forall (fun r => 0 < r) radius ->
  exists vals : list R,
    vikhlinin_density_model (map Fin radius)
      (Fin n0) (Fin rc) (Fin rs) (Fin a) (Fin b) (Fin e) false
    = Ok (map Fin vals)
    /\ Forall (fun v => 0 < v) vals
    /\ vikhlinin_density_model (map Fin radius)
         (Fin n0) (Fin rc) (Fin rs) (Fin a) (Fin b) (Fin e) true
       = Ok (map (fun v => Fin (ln v / ln 10)) vals).
Proof.
  intros Hn Hrc Hrs Hpos.
  exists (map (density n0 rc rs a b e) radius).
  rewrite !model_elementwise, !map_map.
  split; [|split].
  - apply f_equal. apply map_ext_Forall.
    revert Hpos. apply Forall_impl. intros r Hr. now apply spec_value_finite.
  - rewrite Forall_map. revert Hpos. apply Forall_impl.
    intros r Hr. now apply density_pos.
  - apply f_equal. apply map_ext_Forall.
    revert Hpos. apply Forall_impl. intros r Hr.
    rewrite spec_value_finite by assumption. unfold flog10.
    destruct (Rlt_dec 0 (density n0 rc rs a b e r)) as [_ | H];
      [reflexivity|].
    exfalso. apply H. now apply density_pos.
Qed.

(** The statement at the radii 1 and 2 with every parameter equal to 1. *)
Lemma model_positive_on_positive_input_witness :
  exists vals : list R,
    vikhlinin_density_model (map Fin [1; 2])
      (Fin 1) (Fin 1) (Fin 1) (Fin 1) (Fin 1) (Fin 1) false
    = Ok (map Fin vals)
    /\ Forall (fun v => 0 < v) vals
    /\ vikhlinin_density_model (map Fin [1; 2])
         (Fin 1) (Fin 1) (Fin 1) (Fin 1) (Fin 1) (Fin 1) true
       = Ok (map (fun v => Fin (ln v / ln 10)) vals).
Proof.
  apply (model_positive_on_positive_input [1; 2] 1 1 1 1 1 1);
    try lra.
  repeat apply Forall_cons; try apply Forall_nil; lra.
Defined.

Lemma fdiv_common_factor (c : R) (r s : float) :
  0 < c -> ((Fin c * r) / (Fin c * s))%fl = (r / s)%fl.
Proof.
  intros Hc. destruct r as [x| | |], s as [y| | |]; simpl;
    unfold signed_inf; float_cases; simpl; unfold signed_inf; float_cases.
  all: apply f_equal; field; split; lra.
Qed.

(** X3. In exact arithmetic, the model depends on the lengths only through
    the ratios [radius / r_core] and [radius / r_scale]: multiplying the
    radii and the two scale radii by one positive factor changes nothing,
    in either form. *)
Theorem model_invariant_under_length_rescaling (radius : ndarray)
    (n0 rc rs a b e : float) (yield_log : bool) (c : R) :
  0 < c ->
  vikhlinin_density_model (s_op_arr fmul (Fin c) radius) n0
    (Fin c * rc)%fl (Fin c * rs)%fl a b e yield_log
  = vikhlinin_density_model radius n0 rc rs a b e yield_log.
Proof.
  intros Hc. rewrite !model_elementwise. unfold s_op_arr. rewrite map_map.
  apply f_equal, map_ext. intros r. unfold spec_value.
  now rewrite !fdiv_common_factor.
Qed.

(** The statement for the factor 1000, as from kpc to pc. *)
Lemma model_invariant_under_length_rescaling_witness :
  vikhlinin_density_model (s_op_arr fmul (Fin 1000) [Fin 1; Fin 2]) (Fin 1)
    (Fin 1000 * Fin 1)%fl (Fin 1000 * Fin 1)%fl (Fin 1) (Fin 1) (Fin 1) true
  = vikhlinin_density_model [Fin 1; Fin 2] (Fin 1)
      (Fin 1) (Fin 1) (Fin 1) (Fin 1) (Fin 1) true.
Proof.
  apply (model_invariant_under_length_rescaling [Fin 1; Fin 2]
           (Fin 1) (Fin 1) (Fin 1) (Fin 1) (Fin 1) (Fin 1) true 1000).
  lra.
Defined.

(** X4. At [epsilon = 0], the lower end of its default bounds, the third
    term is one and the model does not depend on [r_scale] at all, be it
    zero or [NaN]. *)
Theorem model_ignores_r_scale_at_epsilon_zero (radius : ndarray)
    (n0 rc rs rs' a b : float) (yield_log : bool) :
  vikhlinin_density_model radius n0 rc rs a b (Fin 0) yield_log
  = vikhlinin_density_model radius n0 rc rs' a b (Fin 0) yield_log.
Proof.
  rewrite !model_elementwise. apply f_equal, map_ext. intros r.
  unfold spec_value. rewrite !(fdiv_finite 0 6) by lra.
  now rewrite !(fpow_exponent_zero _ (0 / 6)) by lra.
Qed.

Lemma density_zero_normalisation (rc rs a b e r : R) :
  0 < rc -> 0 < rs -> 0 < r -> density 0 rc rs a b e r = 0.
Proof.
  intros Hrc Hrs Hr. rewrite density_exp by assumption. apply Rmult_0_l.
Qed.

Lemma sum_squared_against_minus_infinity (radius data : list R) :
  length data = length radius -> radius <> [] ->
  sum_squared_differences (map (fun _ => NInf) radius) (map Fin data) = PInf.
Proof.
  revert data. induction radius as [|r radius IH]; intros [|d data] Hlen Hne;
    try discriminate Hlen; [contradiction|].
  simpl. destruct radius as [|r' radius].
  - destruct data; [reflexivity | discriminate Hlen].
  - rewrite IH; [reflexivity | now injection Hlen | discriminate].
Qed.

(** X5. In exact arithmetic, at [n_0 = 0], the lower end of its default
    bounds, the log form is minus infinity at every positive radius, and the
    residual against any finite observations, one per radius and at least
    one, is plus infinity: the objective has no finite value on that face of
    the box. *)
Theorem zero_normalisation_has_infinite_residual (radius data : list R)
    (rc rs a b e : R) :
  0 < rc -> 0 < rs -> Forall (fun r => 0 < r) radius ->
  length data = length radius -> radius <> [] ->
  vikhlinin_density_model (map Fin radius)
    (Fin 0) (Fin rc) (Fin rs) (Fin a) (Fin b) (Fin e) true
  = Ok (map (fun _ => NInf) radius)
  /\ residuals_density [Fin 0; Fin rc; Fin rs; Fin a; Fin b; Fin e]
       (map Fin data) (map Fin radius)
     = Ok PInf.
Proof.
  intros Hrc Hrs Hpos Hlen Hne.
  assert (Hlog : map (fun r => flog10 (spec_value (Fin 0) (Fin rc) (Fin rs)
                                          (Fin a) (Fin b) (Fin e) r))
                   (map Fin radius)
                 = map (fun _ => NInf) radius).
  { rewrite map_map. apply map_ext_Forall.
    revert Hpos. apply Forall_impl. intros r Hr.
    rewrite spec_value_finite, density_zero_normalisation by assumption.
    simpl. destruct (Rlt_dec 0 0); [lra|].
    destruct (Req_dec_T 0 0); [reflexivity | lra]. }
  split.
  - rewrite model_log_elementwise. now rewrite Hlog.
  - rewrite residuals_density_value by now rewrite !length_map.
    rewrite Hlog. now rewrite sum_squared_against_minus_infinity.
Qed.

(** The statement at the radii 1 and 2 and the observations 0 and -1. *)
Lemma zero_normalisation_has_infinite_residual_witness :
  vikhlinin_density_model (map Fin [1; 2])
    (Fin 0) (Fin 1) (Fin 1) (Fin 1) (Fin 1) (Fin 1) true
  = Ok (map (fun _ => NInf) [1; 2])
  /\ residuals_density [Fin 0; Fin 1; Fin 1; Fin 1; Fin 1; Fin 1]
       (map Fin [0; -1]) (map Fin [1; 2])
     = Ok PInf.
Proof.
  apply (zero_normalisation_has_infinite_residual [1; 2] [0; -1] 1 1 1 1 1);
    try lra; try reflexivity; try discriminate.
  repeat apply Forall_cons; try apply Forall_nil; lra.
Defined.

(** Six floats that lie in a box of finite bounds are six reals. *)
Ltac bounded_reals Hbox :=
  repeat match goal with
    | H : Forall2 _ _ _ |- _ => inversion H; clear H; subst
    end;
  repeat match goal with
    | H : fle _ _ /\ fle _ _ |- _ => destruct H
    end;
  cbn [fst snd] in *;
  repeat match goal with
    | H1 : fle (Fin ?lo) ?p, H2 : fle ?p (Fin ?hi) |- _ =>
        destruct (fle_between lo hi p H1 H2) as (? & -> & ?); clear H1 H2
    end.

(** X6. In exact arithmetic, for every parameter vector inside the bounds
    of the MACSIS preset the non-log model takes positive real values at two
    radii [0 < r1 < r2], and the value at [r2] is strictly less than the
    value at [r1]. *)
Theorem macsis_profiles_strictly_decrease (params : list float) (r1 r2 : R) :
  feasible params parameter_bounds_macsis -> 0 < r1 -> r1 < r2 ->
  exists p0 p1 p2 p3 p4 p5 v1 v2,
    params = [p0; p1; p2; p3; p4; p5]
    /\ vikhlinin_density_model [Fin r1; Fin r2] p0 p1 p2 p3 p4 p5 false
       = Ok [Fin v1; Fin v2]
    /\ 0 < v2
    /\ v2 < v1.
Proof.
  intros Hbox H1 H12. unfold feasible, parameter_bounds_macsis in Hbox.
  destruct params as [|p0 [|p1 [|p2 [|p3 [|p4 [|p5 [|p6 l]]]]]]];
    bounded_reals Hbox.
  do 6 eexists.
  match goal with
  | |- context [[Fin ?n0; Fin ?rc; Fin ?rs; Fin ?a; Fin ?b; Fin ?e]] =>
      exists (density n0 rc rs a b e r1), (density n0 rc rs a b e r2);
      destruct (density_monotone n0 rc rs a b e r1 r2) as [_ Hlt]; try lra;
      split; [reflexivity|]; split; [|split; [apply density_pos; lra|]]
  end.
  - rewrite model_linear_elementwise. simpl map.
    now rewrite !spec_value_finite by lra.
  - apply Hlt. left. lra.
Qed.

(** The statement at the lower corner of the preset. *)
Lemma macsis_profiles_strictly_decrease_witness :
  exists p0 p1 p2 p3 p4 p5 v1 v2,
    [Fin 9e-4; Fin 0.01; Fin 0.5; Fin 1.49999; Fin 0.3; Fin 2]
    = [p0; p1; p2; p3; p4; p5]
    /\ vikhlinin_density_model [Fin 1; Fin 2] p0 p1 p2 p3 p4 p5 false
       = Ok [Fin v1; Fin v2]
    /\ 0 < v2
    /\ v2 < v1.
Proof.
  apply (macsis_profiles_strictly_decrease
           [Fin 9e-4; Fin 0.01; Fin 0.5; Fin 1.49999; Fin 0.3; Fin 2] 1 2);
    try lra.
  unfold feasible, parameter_bounds_macsis.
  repeat (apply Forall2_cons; [simpl; lra|]). apply Forall2_nil.
Defined.

(** X7. The box of the MACSIS preset lies inside the box of the default
    bounds: a parameter vector feasible for the preset is feasible for the
    default. *)
Theorem macsis_bounds_within_default (params : list float) :
  feasible params parameter_bounds_macsis ->
  feasible params parameter_bounds_default.
Proof.
  intros Hbox. unfold feasible, parameter_bounds_macsis in Hbox.
  destruct params as [|p0 [|p1 [|p2 [|p3 [|p4 [|p5 [|p6 l]]]]]]];
    bounded_reals Hbox.
  unfold feasible, parameter_bounds_default.
  repeat (apply Forall2_cons; [simpl; split; trivial; lra|]).
  apply Forall2_nil.
Qed.

(** The statement at the lower corner of the preset. *)
Lemma macsis_bounds_within_default_witness :
  feasible [Fin 9e-4; Fin 0.01; Fin 0.5; Fin 1.49999; Fin 0.3; Fin 2]
    parameter_bounds_default.
Proof.
  apply (macsis_bounds_within_default
           [Fin 9e-4; Fin 0.01; Fin 0.5; Fin 1.49999; Fin 0.3; Fin 2]).
  unfold feasible, parameter_bounds_macsis.
  repeat (apply Forall2_cons; [simpl; lra|]). apply Forall2_nil.
Defined.

(* ================================================================== *)
(** * Further properties of the residual *)
(* ================================================================== *)

(** X8. The residual function accepts six parameters, or seven; a
    parameter vector of any other length is a [TypeError], whatever the two
    arrays. *)
Theorem residual_rejects_wrong_parameter_count (free_parameters : list float)
    (density_data radius_data : ndarray) :
  length free_parameters <> 6%nat -> length free_parameters <> 7%nat ->
  residuals_density free_parameters density_data radius_data = Raise TypeError.
Proof.
  intros H6 H7.
  destruct free_parameters as [|p0 [|p1 [|p2 [|p3 [|p4 [|p5 [|p6 [|p7 l]]]]]]]];
    try reflexivity; simpl in H6, H7; contradiction.
Qed.

(** The statement for five parameters. *)
Lemma residual_rejects_wrong_parameter_count_witness :
  residuals_density [Fin 1; Fin 1; Fin 1; Fin 1; Fin 1] [Fin 0] [Fin 1]
  = Raise TypeError.
Proof.
  apply (residual_rejects_wrong_parameter_count
           [Fin 1; Fin 1; Fin 1; Fin 1; Fin 1] [Fin 0] [Fin 1]);
    discriminate.
Defined.

(** X9. A seventh parameter is taken as [yield_log]: when it is zero the
    residual compares the observations with the non-log model, and when it
    is anything else, [NaN] included, with the log form as for six
    parameters. *)
Theorem residual_seventh_parameter_is_yield_log
    (p0 p1 p2 p3 p4 p5 flag : float) (density_data radius_data : ndarray) :
  length density_data = length radius_data ->
  residuals_density [p0; p1; p2; p3; p4; p5; flag] density_data radius_data
  = Ok (sum_squared_differences
          (map (fun r => if truthy flag
                         then flog10 (spec_value p0 p1 p2 p3 p4 p5 r)
                         else spec_value p0 p1 p2 p3 p4 p5 r) radius_data)
          density_data).
Proof.
  intros Hlen. unfold residuals_density, vikhlinin_density_model_star.
  rewrite model_elementwise. cbn [bind].
  rewrite arr_op_same_shape by now rewrite length_map.
  cbn [bind]. rewrite arr_op_same_shape by reflexivity. cbn [bind].
  rewrite zip_with_diag. rewrite np_sum_squares by now rewrite length_map.
  reflexivity.
Qed.

(** The statement at one radius with the seventh parameter zero. *)
Lemma residual_seventh_parameter_is_yield_log_witness :
  residuals_density [Fin 1; Fin 1; Fin 1; Fin 1; Fin 1; Fin 1; Fin 0]
    [Fin 0] [Fin 1]
  = Ok (sum_squared_differences
          (map (fun r => if truthy (Fin 0)
                         then flog10 (spec_value (Fin 1) (Fin 1) (Fin 1)
                                        (Fin 1) (Fin 1) (Fin 1) r)
                         else spec_value (Fin 1) (Fin 1) (Fin 1)
                                (Fin 1) (Fin 1) (Fin 1) r) [Fin 1])
          [Fin 0]).
Proof.
  apply (residual_seventh_parameter_is_yield_log
           (Fin 1) (Fin 1) (Fin 1) (Fin 1) (Fin 1) (Fin 1) (Fin 0)
           [Fin 0] [Fin 1]).
  reflexivity.
Defined.

(** X10. With six parameters, observations and radii of different lengths
    are a [ValueError], unless one of the two arrays has exactly one
    element. *)
Theorem residual_rejects_mismatched_shapes (p0 p1 p2 p3 p4 p5 : float)
    (density_data radius_data : ndarray) :
  length density_data <> length radius_data ->
  length density_data <> 1%nat -> length radius_data <> 1%nat ->
  residuals_density [p0; p1; p2; p3; p4; p5] density_data radius_data
  = Raise ValueError.
Proof.
  intros Hne Hd Hr. unfold residuals_density, vikhlinin_density_model_star.
  rewrite model_log_elementwise. cbn [bind]. unfold arr_op at 1.
  rewrite length_map.
  destruct (Nat.eqb (length radius_data) (length density_data)) eqn:Heq.
  - apply Nat.eqb_eq in Heq. congruence.
  - destruct radius_data as [|r [|r' radius_data]];
      destruct density_data as [|d [|d' density_data]];
      simpl in *; try contradiction; reflexivity.
Qed.

(** The statement for three observations at two radii. *)
Lemma residual_rejects_mismatched_shapes_witness :
  residuals_density [Fin 1; Fin 1; Fin 1; Fin 1; Fin 1; Fin 1]
    [Fin 0; Fin 0; Fin 0] [Fin 1; Fin 2]
  = Raise ValueError.
Proof.
  apply (residual_rejects_mismatched_shapes
           (Fin 1) (Fin 1) (Fin 1) (Fin 1) (Fin 1) (Fin 1)
           [Fin 0; Fin 0; Fin 0] [Fin 1; Fin 2]);
    discriminate.
Defined.

Lemma sum_squared_broadcast (prediction : ndarray) (d : float) :
  np_sum (map (fun v => (v * v)%fl) (map (fun m => (m - d)%fl) prediction))
  = sum_squared_differences prediction (map (fun _ => d) prediction).
Proof.
  induction prediction as [|m prediction IH]; [reflexivity|].
  simpl map. rewrite np_sum_cons. simpl. now rewrite IH.
Qed.

(** X11. A single observation is not a shape error: it is stretched over
    the radii, and the residual is the sum over the radii of the squared
    difference between the prediction and that one observation. *)
Theorem residual_broadcasts_single_observation (p0 p1 p2 p3 p4 p5 d : float)
    (radius_data : ndarray) :
  residuals_density [p0; p1; p2; p3; p4; p5] [d] radius_data
  = Ok (sum_squared_differences
          (map (fun r => flog10 (spec_value p0 p1 p2 p3 p4 p5 r)) radius_data)
          (map (fun _ => d) radius_data)).
Proof.
  destruct (Nat.eq_dec (length radius_data) 1) as [H1 | H1].
  - rewrite residuals_density_value by (symmetry; exact H1).
    destruct radius_data as [|r [|r' l]]; try discriminate H1. reflexivity.
  - unfold residuals_density, vikhlinin_density_model_star.
    rewrite model_log_elementwise. cbn [bind]. unfold arr_op at 1.
    rewrite length_map. simpl length.
    destruct (Nat.eqb (length radius_data) 1) eqn:Heq;
      [apply Nat.eqb_eq in Heq; contradiction|].
    assert (Hstretch :
              match map (fun r => flog10 (spec_value p0 p1 p2 p3 p4 p5 r))
                      radius_data, [d] with
              | [x], _ => Ok (s_op_arr fsub x [d])
              | _, [y] =>
                  Ok (arr_op_s fsub
                        (map (fun r => flog10 (spec_value p0 p1 p2 p3 p4 p5 r))
                           radius_data) y)
              | _, _ => @Raise ndarray ValueError
              end
              = Ok (arr_op_s fsub
                      (map (fun r => flog10 (spec_value p0 p1 p2 p3 p4 p5 r))
                         radius_data) d)).
    { destruct radius_data as [|r [|r' l]]; reflexivity. }
    rewrite Hstretch. cbn [bind].
    rewrite arr_op_same_shape by reflexivity. cbn [bind].
    rewrite zip_with_diag. unfold arr_op_s.
    rewrite sum_squared_broadcast. now rewrite !map_map.
Qed.

Lemma sum_squared_zero_iff (prediction observed : list R) :
  length observed = length prediction ->
  sum_squared_differences (map Fin prediction) (map Fin observed) = Fin 0
  <-> observed = prediction.
Proof.
  revert observed.
  induction prediction as [|m prediction IH]; intros [|d observed] Hlen;
    try discriminate Hlen.
  - split; reflexivity.
  - injection Hlen as Hlen. specialize (IH observed Hlen).
    destruct (sum_squared_finite (map Fin prediction) (map Fin observed))
      as (t & Ht & Hpos).
    { rewrite Forall_map. apply Forall_forall. intros v _. now exists v. }
    { rewrite Forall_map. apply Forall_forall. intros v _. now exists v. }
    simpl. rewrite Ht in *. simpl.
    pose proof (Rle_0_sqr (m + - d)) as Hsq. unfold Rsqr in Hsq.
    split.
    + intros [= Hsum].
      assert (Ht0 : t = 0) by lra.
      assert (Hmd : (m + - d) * (m + - d) = 0) by lra.
      apply Rmult_integral in Hmd.
      assert (d = m) by (destruct Hmd; lra). subst d.
      f_equal. apply IH. now rewrite Ht0.
    + intros [= -> ->].
      assert (Ht0 : Fin t = Fin 0) by now apply IH.
      injection Ht0 as ->. apply f_equal. ring.
Qed.

(** X12. In exact arithmetic, when the log-form predictions are finite,
    the residual against finite observations, one per radius, is exactly
    zero if and only if every observation equals its prediction: data
    generated by the model itself is a global minimum of the objective, with
    value zero. *)
Theorem residual_zero_iff_exact_fit (p0 p1 p2 p3 p4 p5 : float)
    (radius_data : ndarray) (log_model observed : list R) :
  vikhlinin_density_model radius_data p0 p1 p2 p3 p4 p5 true
  = Ok (map Fin log_model) ->
  length observed = length radius_data ->
  (residuals_density [p0; p1; p2; p3; p4; p5] (map Fin observed) radius_data
   = Ok (Fin 0)
   <-> observed = log_model).
Proof.
  intros Hmodel Hlen.
  rewrite residuals_density_value by now rewrite length_map.
  rewrite model_log_elementwise in Hmodel. injection Hmodel as Hmodel.
  rewrite Hmodel.
  assert (Hlen' : length observed = length log_model).
  { rewrite Hlen. rewrite <- (length_map Fin log_model), <- Hmodel.
    now rewrite length_map. }
  split.
  - intros [= H]. now apply sum_squared_zero_iff.
  - intros H. apply f_equal. now apply sum_squared_zero_iff.
Qed.

(** The statement at the radius 1 with the exponents at zero, where the
    prediction is the logarithm of the normalisation 1. *)
Lemma residual_zero_iff_exact_fit_witness :
  residuals_density [Fin 1; Fin 1; Fin 1; Fin 0; Fin 0; Fin 0]
    (map Fin [ln 1 / ln 10]) [Fin 1]
  = Ok (Fin 0)
  <-> [ln 1 / ln 10] = [ln 1 / ln 10].
Proof.
  apply (residual_zero_iff_exact_fit
           (Fin 1) (Fin 1) (Fin 1) (Fin 0) (Fin 0) (Fin 0)
           [Fin 1] [ln 1 / ln 10] [ln 1 / ln 10]).
  - rewrite model_log_elementwise. simpl map. rewrite spec_value_flat.
    simpl. destruct (Rlt_dec 0 1); [reflexivity | lra].
  - reflexivity.
Defined.

Lemma density_scale (k n0 rc rs a b e r : R) :
  density (k * n0) rc rs a b e r = k * density n0 rc rs a b e r.
Proof. unfold density, Rdiv. ring. Qed.

Lemma sum_squared_shift (s : R) (prediction observed : list R) :
  sum_squared_differences (map (fun m => Fin (m + s)) prediction)
    (map (fun y => Fin (y + s)) observed)
  = sum_squared_differences (map Fin prediction) (map Fin observed).
Proof.
  revert observed.
  induction prediction as [|m prediction IH]; intros [|d observed];
    try reflexivity.
  simpl. rewrite IH.
  destruct (sum_squared_differences (map Fin prediction) (map Fin observed));
    simpl; try reflexivity.
  apply f_equal. ring.
Qed.

(** X13. The objective does not depend on the unit of the density: for a
    positive profile at positive radii, multiplying every density and the
    normalisation [n_0] by one positive factor leaves the residual between
    the log form and the logarithm of the profile unchanged. *)
Theorem residual_invariant_under_density_rescaling (radius profile : list R)
    (n0 rc rs a b e k : R) :
  0 < k -> 0 < n0 -> 0 < rc -> 0 < rs ->
  Forall (fun r => 0 < r) radius -> Forall (fun d => 0 < d) profile ->
  length profile = length radius ->
  residuals_density [Fin (k * n0); Fin rc; Fin rs; Fin a; Fin b; Fin e]
    (np_log10 (s_op_arr fmul (Fin k) (map Fin profile))) (map Fin radius)
  = residuals_density [Fin n0; Fin rc; Fin rs; Fin a; Fin b; Fin e]
      (np_log10 (map Fin profile)) (map Fin radius).
Proof.
  intros Hk Hn Hrc Hrs Hpos Hprof Hlen.
  rewrite !residuals_density_value
    by (unfold np_log10, s_op_arr; now rewrite !length_map).
  apply f_equal.
  pose proof ln_10_pos as H10.
  assert (Hpred : forall q,
            0 < q ->
            map (fun r => flog10 (spec_value (Fin q) (Fin rc) (Fin rs)
                                    (Fin a) (Fin b) (Fin e) r))
              (map Fin radius)
            = map (fun r => Fin (ln (density q rc rs a b e r) / ln 10)) radius).
  { intros q Hq. rewrite map_map. apply map_ext_Forall.
    revert Hpos. apply Forall_impl. intros r Hr.
    rewrite spec_value_finite by assumption. unfold flog10.
    destruct (Rlt_dec 0 (density q rc rs a b e r)) as [_ | H];
      [reflexivity|].
    exfalso. apply H. now apply density_pos. }
  assert (Hobs : forall q,
            0 < q ->
            np_log10 (s_op_arr fmul (Fin q) (map Fin profile))
            = map (fun d => Fin (ln (q * d) / ln 10)) profile).
  { intros q Hq. unfold np_log10, s_op_arr. rewrite !map_map.
    apply map_ext_Forall. revert Hprof. apply Forall_impl. intros d Hd.
    simpl. destruct (Rlt_dec 0 (q * d)) as [_ | H]; [reflexivity|].
    exfalso. apply H. now apply Rmult_lt_0_compat. }
  rewrite (Hpred (k * n0)) by now apply Rmult_lt_0_compat.
  rewrite (Hpred n0), (Hobs k) by assumption.
  replace (np_log10 (map Fin profile))
    with (map (fun d => Fin (ln d / ln 10)) profile).
  2:{ unfold np_log10. rewrite map_map. apply map_ext_Forall.
      revert Hprof. apply Forall_impl. intros d Hd. simpl.
      destruct (Rlt_dec 0 d); [reflexivity | contradiction]. }
  transitivity
    (sum_squared_differences
       (map Fin (map (fun r => ln (density n0 rc rs a b e r) / ln 10) radius))
       (map Fin (map (fun d => ln d / ln 10) profile)));
    [|now rewrite !map_map].
  rewrite <- (sum_squared_shift (ln k / ln 10)).
  rewrite !map_map. f_equal.
  - apply map_ext_Forall. revert Hpos. apply Forall_impl. intros r Hr.
    rewrite density_scale, ln_mult by (try apply density_pos; assumption).
    apply f_equal. field. lra.
  - apply map_ext_Forall. revert Hprof. apply Forall_impl. intros d Hd.
    rewrite ln_mult by assumption. apply f_equal. field. lra.
Qed.

(** The statement at two radii, for the factor 1000. *)
Lemma residual_invariant_under_density_rescaling_witness :
  residuals_density [Fin (1000 * 1); Fin 1; Fin 1; Fin 1; Fin 1; Fin 1]
    (np_log10 (s_op_arr fmul (Fin 1000) (map Fin [1; 0.5]))) (map Fin [1; 2])
  = residuals_density [Fin 1; Fin 1; Fin 1; Fin 1; Fin 1; Fin 1]
      (np_log10 (map Fin [1; 0.5])) (map Fin [1; 2]).
Proof.
  apply (residual_invariant_under_density_rescaling
           [1; 2] [1; 0.5] 1 1 1 1 1 1 1000);
    try lra; try reflexivity;
    repeat apply Forall_cons; try apply Forall_nil; lra.
Defined.

Lemma sum_squared_app (prediction1 prediction2 observed1 observed2 : ndarray) :
  length observed1 = length prediction1 ->
  sum_squared_differences (prediction1 ++ prediction2) (observed1 ++ observed2)
  = (sum_squared_differences prediction1 observed1
     + sum_squared_differences prediction2 observed2)%fl.
Proof.
  revert observed1.
  induction prediction1 as [|m prediction1 IH]; intros [|d observed1] Hlen;
    try discriminate Hlen.
  - cbn [app sum_squared_differences]. now rewrite fadd_zero_l.
  - injection Hlen as Hlen. cbn [app sum_squared_differences].
    rewrite IH by assumption. now rewrite fadd_assoc.
Qed.

(** X14. The residual adds up over the data: for two sets of observations,
    each with one observation per radius, the residual of the two sets put
    end to end is the sum of their residuals. *)
Theorem residual_adds_over_concatenation (p0 p1 p2 p3 p4 p5 : float)
    (density1 density2 radius1 radius2 : ndarray) :
  length density1 = length radius1 -> length density2 = length radius2 ->
  exists s1 s2,
    residuals_density [p0; p1; p2; p3; p4; p5] density1 radius1 = Ok s1
    /\ residuals_density [p0; p1; p2; p3; p4; p5] density2 radius2 = Ok s2
    /\ residuals_density [p0; p1; p2; p3; p4; p5]
         (density1 ++ density2) (radius1 ++ radius2)
       = Ok (s1 + s2)%fl.
Proof.
  intros H1 H2. eexists. eexists.
  rewrite !residuals_density_value
    by (rewrite ?length_app; congruence).
  split; [reflexivity|]. split; [reflexivity|].
  rewrite map_app. now rewrite sum_squared_app by now rewrite length_map.
Qed.

(** The statement for one observation followed by two. *)
Lemma residual_adds_over_concatenation_witness :
  exists s1 s2,
    residuals_density [Fin 1; Fin 1; Fin 1; Fin 1; Fin 1; Fin 1]
      [Fin 0] [Fin 1] = Ok s1
    /\ residuals_density [Fin 1; Fin 1; Fin 1; Fin 1; Fin 1; Fin 1]
         [Fin 0; Fin (-1)] [Fin 2; Fin 3] = Ok s2
    /\ residuals_density [Fin 1; Fin 1; Fin 1; Fin 1; Fin 1; Fin 1]
         ([Fin 0] ++ [Fin 0; Fin (-1)]) ([Fin 1] ++ [Fin 2; Fin 3])
       = Ok (s1 + s2)%fl.
Proof.
  apply (residual_adds_over_concatenation
           (Fin 1) (Fin 1) (Fin 1) (Fin 1) (Fin 1) (Fin 1)
           [Fin 0] [Fin 0; Fin (-1)] [Fin 1] [Fin 2; Fin 3]);
    reflexivity.
Defined.

Lemma fadd_nan_r (a : float) : (a + NaN)%fl = NaN.
Proof. destruct a; reflexivity. Qed.

Lemma sum_squared_with_nan_observation (prediction observed : ndarray) :
  length observed = length prediction ->
  Exists (fun d => d = NaN) observed ->
  sum_squared_differences prediction observed = NaN.
Proof.
  intros Hlen Hex. revert prediction Hlen.
  induction Hex as [d observed -> | d observed _ IH];
    intros [|m prediction] Hlen; try discriminate Hlen.
  - cbn [sum_squared_differences]. unfold fsub. cbn [fneg].
    rewrite fadd_nan_r. reflexivity.
  - injection Hlen as Hlen. cbn [sum_squared_differences].
    rewrite IH by assumption. apply fadd_nan_r.
Qed.

(** X15. One negative density is enough to spoil the fit: the logarithm of
    the profile then holds a [NaN], and the residual is [NaN] for every
    vector of six parameters, so the optimiser is handed an objective without
    any number in it. *)
Theorem negative_density_makes_residual_nan (p0 p1 p2 p3 p4 p5 : float)
    (profile radius_data : ndarray) :
  length profile = length radius_data ->
  Exists (fun d => exists x, d = Fin x /\ x < 0) profile ->
  residuals_density [p0; p1; p2; p3; p4; p5] (np_log10 profile) radius_data
  = Ok NaN.
Proof.
  intros Hlen Hneg.
  rewrite residuals_density_value by (unfold np_log10; now rewrite length_map).
  apply f_equal. apply sum_squared_with_nan_observation.
  - unfold np_log10. now rewrite !length_map.
  - unfold np_log10. rewrite Exists_map.
    revert Hneg. apply Exists_impl. intros d (x & -> & Hx). simpl.
    destruct (Rlt_dec 0 x); [lra|]. destruct (Req_dec_T x 0); [lra | reflexivity].
Qed.

(** The statement for the profile [1, -1] at the radii 1 and 2. *)
Lemma negative_density_makes_residual_nan_witness :
  residuals_density [Fin 1; Fin 1; Fin 1; Fin 1; Fin 1; Fin 1]
    (np_log10 [Fin 1; Fin (-1)]) [Fin 1; Fin 2]
  = Ok NaN.
Proof.
  apply (negative_density_makes_residual_nan
           (Fin 1) (Fin 1) (Fin 1) (Fin 1) (Fin 1) (Fin 1)
           [Fin 1; Fin (-1)] [Fin 1; Fin 2]).
  - reflexivity.
  - apply Exists_cons_tl, Exists_cons_hd. exists (-1). split; [reflexivity | lra].
Defined.

(* ================================================================== *)
(** * Further properties of the construction *)
(* ================================================================== *)






(** X18. With dimensionless radii and six fitted parameters, a termination
    message with a byte outside ASCII makes the construction raise
    [UnicodeDecodeError], once the fit has run and the curve and the
    parameters have been computed. *)
Theorem construction_rejects_non_ascii_message (minimize : minimizer)
    (to_float32 : float -> float) (radii0 density0 : unyt_array)
    (start_params : option (list float))
    (param_bounds : option (list (float * float)))
    (res : OptimizeResult.t) :
  units radii0 = "dimensionless"%string ->
  fit_call minimize
    (mk_constructed radii0 density0
       (default_arg start_params starting_parameters_default)
       (default_arg param_bounds parameter_bounds_default)) = Ok res ->
  length (OptimizeResult.x res) = 6%nat ->
  forallb is_ascii (OptimizeResult.message res) = false ->
  __init__ minimize to_float32 radii0 density0 start_params param_bounds
  = ((if OptimizeResult.success res then []
      else [RuntimeWarning did_not_succeed]),
     Raise UnicodeDecodeError).
Proof.
  intros _ Hcall Hlen Hmsg. unfold __init__, run_hse_fit.
  rewrite (density_fit_returns _ _ _ Hcall). unfold bind_py at 1.
  destruct (OptimizeResult.x res)
    as [|p0 [|p1 [|p2 [|p3 [|p4 [|p5 [|p6 l]]]]]]];
    try discriminate Hlen.
  unfold vikhlinin_density_model_star. rewrite model_elementwise.
  unfold lift, bind_py, decode_ascii. rewrite Hmsg.
  now rewrite app_nil_r.
Qed.

(** The statement for a message that holds the byte 0xff. *)
Lemma construction_rejects_non_ascii_message_witness :
  __init__
    (constant_minimizer
       (OptimizeResult.mk
          [Fin 1; Fin 1; Fin 1; Fin 1; Fin 1; Fin 1] true
          [Byte.xff] 3))
    Sample.exact Sample.two_radii Sample.two_densities None None
  = ([], Raise UnicodeDecodeError).
Proof.
  apply (construction_rejects_non_ascii_message
           (constant_minimizer
              (OptimizeResult.mk
                 [Fin 1; Fin 1; Fin 1; Fin 1; Fin 1; Fin 1] true
                 [Byte.xff] 3))
           Sample.exact Sample.two_radii Sample.two_densities None None
           (OptimizeResult.mk
              [Fin 1; Fin 1; Fin 1; Fin 1; Fin 1; Fin 1] true
              [Byte.xff] 3));
    reflexivity.
Defined.

(** X19. The object records the optimiser's diagnostics and its own
    arguments: [success] and [n_iterations] are the optimiser's [success]
    and [nit], [message] is the optimiser's message decoded (its bytes are
    the message again), the radii, the profile, the starting vector and the
    bounds are the ones passed or the defaults, and the fitted curve has one
    value per radius. *)
Theorem diagnostics_and_inputs_recorded (minimize : minimizer)
    (to_float32 : float -> float) (radii0 density0 : unyt_array)
    (start_params : option (list float))
    (param_bounds : option (list (float * float)))
    (w : list warning) (est : VikhlininProfile) :
  __init__ minimize to_float32 radii0 density0 start_params param_bounds
  = (w, Ok est) ->
  success est = OptimizeResult.success (density_fit_params est)
  /\ n_iterations est = OptimizeResult.nit (density_fit_params est)
  /\ list_byte_of_string (message est)
     = OptimizeResult.message (density_fit_params est)
  /\ inputs est
     = mk_constructed radii0 density0
         (default_arg start_params starting_parameters_default)
         (default_arg param_bounds parameter_bounds_default)
  /\ length (density_profile_hse est) = length (values radii0).
Proof.
  unfold __init__. intros Hrun.
  destruct (run_hse_fit_inv _ _ _ _ _ Hrun)
    as (res & p0 & p1 & p2 & p3 & p4 & p5 & Hcall & Hx & Hmsg).
  rewrite (run_hse_fit_stores _ _ _ _ _ _ _ _ _ _ Hcall Hx Hmsg) in Hrun.
  injection Hrun as _ <-.
  cbn [success n_iterations message inputs density_fit_params
         density_profile_hse radii].
  repeat split.
  - apply list_byte_of_string_of_list_byte.
  - apply length_map.
Qed.

(** The statement at the sample object of a fit that did not converge. *)
Lemma diagnostics_and_inputs_recorded_witness :
  success (Sample.fitted false)
  = OptimizeResult.success (density_fit_params (Sample.fitted false))
  /\ n_iterations (Sample.fitted false)
     = OptimizeResult.nit (density_fit_params (Sample.fitted false))
  /\ list_byte_of_string (message (Sample.fitted false))
     = OptimizeResult.message (density_fit_params (Sample.fitted false))
  /\ inputs (Sample.fitted false)
     = mk_constructed Sample.two_radii Sample.two_densities
         (default_arg None starting_parameters_default)
         (default_arg None parameter_bounds_default)
  /\ length (density_profile_hse (Sample.fitted false))
     = length (values Sample.two_radii).
Proof.
  apply (diagnostics_and_inputs_recorded
           (constant_minimizer (Sample.fit false)) Sample.exact
           Sample.two_radii Sample.two_densities None None
           [RuntimeWarning did_not_succeed] (Sample.fitted false)).
  reflexivity.
Defined.



(** X21. When the fitted normalisation, core radius and scale radius are
    positive and the radii are positive, the stored fitted curve is the
    non-log model at the input radii and the fitted parameters, and all its
    values are positive reals. *)
Theorem fitted_curve_is_model_for_positive_fit (minimize : minimizer)
    (to_float32 : float -> float) (radii0 density0 : unyt_array)
    (start_params : option (list float))
    (param_bounds : option (list (float * float)))
    (w : list warning) (est : VikhlininProfile)
    (n0 rc rs a b e : R) (radius : list R) :
  __init__ minimize to_float32 radii0 density0 start_params param_bounds
  = (w, Ok est) ->
  OptimizeResult.x (density_fit_params est)
  = [Fin n0; Fin rc; Fin rs; Fin a; Fin b; Fin e] ->
  0 < n0 -> 0 < rc -> 0 < rs ->
  values radii0 = map Fin radius -> Forall (fun r => 0 < r) radius ->
  vikhlinin_density_model (values radii0)
    (Fin n0) (Fin rc) (Fin rs) (Fin a) (Fin b) (Fin e) false
  = Ok (density_profile_hse est)
  /\ Forall positive (density_profile_hse est).
Proof.
  unfold __init__. intros Hrun.
  destruct (run_hse_fit_inv _ _ _ _ _ Hrun)
    as (res & p0 & p1 & p2 & p3 & p4 & p5 & Hcall & Hx & Hmsg).
  rewrite (run_hse_fit_stores _ _ _ _ _ _ _ _ _ _ Hcall Hx Hmsg) in Hrun.
  injection Hrun as _ <-.
  cbn [density_profile_hse density_fit_params radii].
  rewrite Hx. intros [= -> -> -> -> -> ->] Hn Hrc Hrs -> Hpos.
  rewrite model_linear_elementwise.
  assert (Hcurve :
            map (fun r => (Fin 10 ** flog10 (spec_value (Fin n0) (Fin rc) (Fin rs)
                                               (Fin a) (Fin b) (Fin e) r))%fl)
              (map Fin radius)
            = map (fun r => Fin (density n0 rc rs a b e r)) radius).
  { rewrite map_map. apply map_ext_Forall.
    revert Hpos. apply Forall_impl. intros r Hr.
    rewrite exp10_log10, spec_value_finite by assumption.
    apply through_log10_nonnegative. simpl.
    left. now apply density_pos. }
  split.
  - apply f_equal. etransitivity; [|symmetry; exact Hcurve].
    rewrite map_map. apply map_ext_Forall.
    revert Hpos. apply Forall_impl. intros r Hr. now apply spec_value_finite.
  - eapply eq_ind_r with (x := map (fun r => Fin (density n0 rc rs a b e r)) radius);
      [|exact Hcurve].
    rewrite Forall_map. revert Hpos. apply Forall_impl. intros r Hr.
    exists (density n0 rc rs a b e r). split; [reflexivity|].
    now apply density_pos.
Qed.

(** The statement at the sample object, every parameter of which is 1. *)
Lemma fitted_curve_is_model_for_positive_fit_witness :
  vikhlinin_density_model (values Sample.two_radii)
    (Fin 1) (Fin 1) (Fin 1) (Fin 1) (Fin 1) (Fin 1) false
  = Ok (density_profile_hse (Sample.fitted true))
  /\ Forall positive (density_profile_hse (Sample.fitted true)).
Proof.
  apply (fitted_curve_is_model_for_positive_fit
           (constant_minimizer (Sample.fit true)) Sample.exact
           Sample.two_radii Sample.two_densities None None
           [] (Sample.fitted true) 1 1 1 1 1 1 [1; 2]);
    try reflexivity; try lra.
  repeat apply Forall_cons; try apply Forall_nil; lra.
Defined.

(* ================================================================== *)
(** * How the exponents act on the model *)
(* ================================================================== *)

Lemma log_slope_monotone_in_exponents (rc rs a a' b b' e e' r : R) :
  0 < rc -> 0 < rs -> 0 < r -> a <= a' -> b' <= b -> e' <= e ->
  log_slope rc rs a b e r <= log_slope rc rs a' b' e' r.
Proof.
  intros Hrc Hrs Hr Ha Hb He.
  assert (Hx : 0 < r / rc) by (apply Rdiv_lt_0_compat; assumption).
  assert (Hs : 0 < r / rs) by (apply Rdiv_lt_0_compat; assumption).
  unfold log_slope. rewrite !ln_square_ratio by assumption.
  set (x := r / rc) in *. set (s := r / rs) in *.
  assert (Hx2 : 0 < x ^ 2) by (apply pow_lt; assumption).
  assert (Hs3 : 0 < s ^ 3) by (apply pow_lt; assumption).
  assert (Hi : 0 < / x ^ 2) by (apply Rinv_0_lt_compat; assumption).
  assert (K1 : 0 < ln (1 + / x ^ 2))
    by (rewrite <- ln_1; apply ln_increasing; lra).
  assert (K2 : 0 < ln (1 + x ^ 2))
    by (rewrite <- ln_1; apply ln_increasing; lra).
  assert (K3 : 0 < ln (1 + s ^ 3))
    by (rewrite <- ln_1; apply ln_increasing; lra).
  nra.
Qed.

(** X22. In exact arithmetic, at a positive radius, with positive
    normalisation, core radius and scale radius, the non-log model does not
    decrease when [alpha] is raised and does not increase when [beta] or
    [epsilon] is raised. *)
Theorem model_monotone_in_exponents (n0 rc rs a a' b b' e e' r : R) :
  0 < n0 -> 0 < rc -> 0 < rs -> 0 < r ->
  a <= a' -> b' <= b -> e' <= e ->
  exists v v' : R,
    vikhlinin_density_model [Fin r]
      (Fin n0) (Fin rc) (Fin rs) (Fin a) (Fin b) (Fin e) false = Ok [Fin v]
    /\ vikhlinin_density_model [Fin r]
         (Fin n0) (Fin rc) (Fin rs) (Fin a') (Fin b') (Fin e') false
       = Ok [Fin v']
    /\ v <= v'.
Proof.
  intros Hn Hrc Hrs Hr Ha Hb He.
  exists (density n0 rc rs a b e r), (density n0 rc rs a' b' e' r).
  rewrite !model_linear_elementwise. simpl map.
  rewrite !spec_value_finite by assumption.
  split; [reflexivity|]. split; [reflexivity|].
  rewrite !density_exp by assumption.
  apply Rmult_le_compat_l; [lra|].
  destruct (log_slope_monotone_in_exponents rc rs a a' b b' e e' r)
    as [Hlt | Heq]; try assumption.
  - left. now apply exp_increasing.
  - rewrite Heq. right. reflexivity.
Qed.

(** The statement at the radius 1, from the exponents (1, 2, 2) to
    (2, 1, 1). *)
Lemma model_monotone_in_exponents_witness :
  exists v v' : R,
    vikhlinin_density_model [Fin 1]
      (Fin 1) (Fin 1) (Fin 1) (Fin 1) (Fin 2) (Fin 2) false = Ok [Fin v]
    /\ vikhlinin_density_model [Fin 1]
         (Fin 1) (Fin 1) (Fin 1) (Fin 2) (Fin 1) (Fin 1) false
       = Ok [Fin v']
    /\ v <= v'.
Proof.
  apply (model_monotone_in_exponents 1 1 1 1 2 2 1 2 1 1); lra.
Defined.
